(** * IAtendente: booking wizard and staff action scripts

    A shallow embedding of the two browser scripts of the repository,
    [staticfiles/js/public_intake.js] (booking wizard, slot fetcher and
    bucketizer) and [static/js/solicitacoes.js] (staff action poster),
    followed by the properties their specification states about them.

    Conventions of the embedding.
    - A JavaScript string is a [string]; one character of the model stands
      for one code unit of the script's string.  The few literals of the
      scripts outside ASCII (labels, the dash of an error message) are
      written as they are in the source files, that is by their bytes; no
      property below measures them.
    - A JavaScript number is a [JS.number]: an integer or [NaN].  The scripts
      only compute with hours, counts and HTTP status codes.
    - The DOM, the network and the dialogs are explicit: a function of the
      script takes the part of the page it reads and the answers it awaits
      (fetch outcome, dialog answer, wall-clock hour) and returns the part of
      the page it writes, with a trace of effects where the order matters. *)

From Stdlib Require Import List String Ascii ZArith Lia Bool Sorted Permutation.
From Stdlib Require Import DecimalString.
Import ListNotations.
Local Open Scope string_scope.
Local Open Scope Z_scope.
Local Open Scope list_scope.

(** ** Host functions used by the scripts *)

Infix "^^" := String.append (at level 60, right associativity).

Module JS.

(** Numbers: the integers the scripts meet, and NaN. *)
Inductive number : Type :=
| NaN
| Num (z : Z).

(** [a - b] *)
Definition sub (a b : number) : number :=
  match a, b with
  | Num x, Num y => Num (x - y)
  | _, _ => NaN
  end.

(** [a >= k] and [a <= k]; every comparison with NaN is false. *)
Definition ge (a : number) (k : Z) : bool :=
  match a with Num x => k <=? x | NaN => false end.

Definition le (a : number) (k : Z) : bool :=
  match a with Num x => x <=? k | NaN => false end.

(** [Boolean(s)] on a string: only the empty string is falsy. *)
Definition Boolean (s : string) : bool := negb (String.eqb s "").

(** Truthiness of a count. *)
Definition truthy (n : Z) : bool := negb (n =? 0).

(** [String(n)] for an integer. *)
Definition String_of (n : Z) : string := NilZero.string_of_int (Z.to_int n).

(** [\d] *)
Definition is_digit (c : ascii) : bool :=
  ((48 <=? N_of_ascii c) && (N_of_ascii c <=? 57))%N.

Definition digit_value (c : ascii) : Z := Z.of_N (N_of_ascii c) - 48.

Fixpoint digits_value (acc : Z) (s : string) : option Z :=
  match s with
  | EmptyString => Some acc
  | String c s' =>
      if is_digit c then digits_value (10 * acc + digit_value c) s' else None
  end.

(** [Number(s)] on a string.  Exact on the empty string and on strings of
    decimal digits, which is what reaches it in the scripts (hour keys that
    passed the [HH:MM] test).  Any other string is mapped to NaN here; the
    host also accepts blanks, signs, fractions, exponents and radix
    prefixes, none of which is a hour key. *)
Definition Number (s : string) : number :=
  match digits_value 0 s with
  | Some z => Num z
  | None => NaN
  end.

(** [/^\d{2}:\d{2}$/.test(t)] *)
Definition test_hhmm (t : string) : bool :=
  match t with
  | String a (String b (String c (String d (String e EmptyString)))) =>
      is_digit a && is_digit b && Ascii.eqb c ":" && is_digit d && is_digit e
  | _ => false
  end.

(** [t.split(sep)[0]]: the characters before the first separator. *)
Fixpoint split_first (sep : ascii) (t : string) : string :=
  match t with
  | EmptyString => EmptyString
  | String c t' =>
      if Ascii.eqb c sep then EmptyString else String c (split_first sep t')
  end.

(** [a.localeCompare(b)].  The collation of the host is not part of the
    repository.  The comparator is only called on strings that passed
    [test_hhmm] (two digits, a colon, two digits); on those every collation
    orders by the digits from left to right, which is the code-unit order
    taken here. *)
Definition localeCompare (a b : string) : number :=
  match String.compare a b with
  | Lt => Num (-1)
  | Eq => Num 0
  | Gt => Num 1
  end.

(** [txt.slice(0, n)] *)
Definition slice0 (n : nat) (txt : string) : string := substring 0 n txt.

(** [s.trim()]: blanks and line terminators of the one-byte range. *)
Definition is_blank (c : ascii) : bool :=
  let n := N_of_ascii c in
  ((9 <=? n) && (n <=? 13) || (n =? 32) || (n =? 160))%N.

Fixpoint trim_start (s : string) : string :=
  match s with
  | EmptyString => EmptyString
  | String c s' => if is_blank c then trim_start s' else s
  end.

Fixpoint trim_end (s : string) : string :=
  match s with
  | EmptyString => EmptyString
  | String c s' =>
      match trim_end s' with
      | EmptyString => if is_blank c then EmptyString else String c EmptyString
      | r => String c r
      end
  end.

Definition trim (s : string) : string := trim_end (trim_start s).

(** [new Set(xs)] read back with the spread operator: insertion order,
    first occurrence kept. *)
Definition Set_has (s : list string) (x : string) : bool :=
  existsb (String.eqb x) s.

Definition Set_add (s : list string) (x : string) : list string :=
  if Set_has s x then s else s ++ [x].

Definition Set_from (xs : list string) : list string :=
  fold_left Set_add xs [].

(** [Array.prototype.sort(cmp)]: a stable sort; a comparator result that is
    NaN counts as zero.  An element moves behind exactly the elements it
    compares greater than. *)
Section Sort.
Context {A : Type} (cmp : A -> A -> number).

Definition positive (v : number) : bool :=
  match v with Num z => 0 <? z | NaN => false end.

Fixpoint sort_insert (x : A) (l : list A) : list A :=
  match l with
  | [] => [x]
  | y :: l' => if positive (cmp x y) then y :: sort_insert x l' else x :: l
  end.

Fixpoint Array_sort (l : list A) : list A :=
  match l with
  | [] => []
  | x :: l' => sort_insert x (Array_sort l')
  end.
End Sort.

(** Plain objects used as maps from string keys: own properties in
    creation order. *)
Definition obj (V : Type) : Type := list (string * V).

Section Obj.
Context {V : Type}.

Fixpoint obj_get (o : obj V) (k : string) : option V :=
  match o with
  | [] => None
  | (k', v) :: o' => if String.eqb k' k then Some v else obj_get o' k
  end.

(** [o[k] = v]: an existing property keeps its place, a new one is
    created last. *)
Fixpoint obj_set (o : obj V) (k : string) (v : V) : obj V :=
  match o with
  | [] => [(k, v)]
  | (k', v') :: o' =>
      if String.eqb k' k then (k', v) :: o' else (k', v') :: obj_set o' k v
  end.

(** A key is an array index when it is the canonical decimal form of an
    integer below [2^32 - 1]: no leading zero. *)
Definition array_index (k : string) : option Z :=
  match k with
  | EmptyString => None
  | String c rest =>
      if Ascii.eqb c "0" && negb (String.eqb rest "") then None
      else match digits_value 0 k with
           | Some z => if z <? 2 ^ 32 - 1 then Some z else None
           | None => None
           end
  end.

Definition is_array_index (k : string) : bool :=
  match array_index k with Some _ => true | None => false end.

(** [Object.keys(o)]: array-index keys first, in ascending numeric
    order, then the other keys in creation order. *)
Definition Object_keys (o : obj V) : list string :=
  let ks := map fst o in
  Array_sort (fun a b => sub (Number a) (Number b)) (filter is_array_index ks)
  ++ filter (fun k => negb (is_array_index k)) ks.
End Obj.

Record JsError : Type := { err_name : string; err_message : string }.

(** [new Error(msg)] *)
Definition Error (msg : string) : JsError :=
  {| err_name := "Error"; err_message := msg |}.

(** [String(e)] for an error object. *)
Definition Error_toString (e : JsError) : string :=
  if negb (Boolean (err_name e)) then err_message e
  else if negb (Boolean (err_message e)) then err_name e
  else err_name e ^^ ": " ^^ err_message e.

Inductive TextResult : Type :=
| TextOk (txt : string)
| TextFail (e : JsError).

(** What [await resp.json()] followed by the first property read gives:
    the payload, or the error thrown (the body is not JSON, or the value
    is [null] and has no properties). *)
Inductive JsonResult (D : Type) : Type :=
| JsonThrows (e : JsError)
| JsonData (d : D).
Arguments JsonThrows {D}.
Arguments JsonData {D}.

Record Response (D : Type) : Type :=
  { ok : bool; status : Z; text : TextResult; json : JsonResult D }.
Arguments ok {D}.
Arguments status {D}.
Arguments text {D}.
Arguments json {D}.

Inductive FetchResult (D : Type) : Type :=
| FetchFail (e : JsError)
| FetchOk (r : Response D).
Arguments FetchFail {D}.
Arguments FetchOk {D}.

(** [s.replace(/\D/g, '')] *)
Fixpoint remove_non_digits (s : string) : string :=
  match s with
  | EmptyString => EmptyString
  | String c s' =>
      if is_digit c then String c (remove_non_digits s')
      else remove_non_digits s'
  end.

(** [s.slice(a, b)] and [s.slice(a)] for indices that are not negative. *)
Definition slice (a b : nat) (s : string) : string :=
  substring a (b - a)%nat s.

Definition slice_from (a : nat) (s : string) : string :=
  substring a (String.length s - a)%nat s.

(** [s.padStart(2, '0')] *)
Definition padStart2 (s : string) : string :=
  match String.length s with
  | O => "00"
  | S O => "0" ^^ s
  | _ => s
  end.

End JS.

(** ** public_intake.js: slot bucketizer *)

Module Intake.
Import JS.

Inductive bucket : Type := Morning | Afternoon | Evening.

Definition bucket_eqb (a b : bucket) : bool :=
  match a, b with
  | Morning, Morning | Afternoon, Afternoon | Evening, Evening => true
  | _, _ => false
  end.

(** One entry [{ hour, list }] of a bucket. *)
Record HourGroup : Type := { hour : string; list_ : list string }.

(** [{ morning, afternoon, evening }] *)
Record Buckets (A : Type) : Type :=
  { morning : A; afternoon : A; evening : A }.
Arguments morning {A}.
Arguments afternoon {A}.
Arguments evening {A}.

Definition bucket_get {A} (bb : Buckets A) (b : bucket) : A :=
  match b with
  | Morning => morning bb
  | Afternoon => afternoon bb
  | Evening => evening bb
  end.

Definition bucket_map {A B} (f : A -> B) (bb : Buckets A) : Buckets B :=
  {| morning := f (morning bb);
     afternoon := f (afternoon bb);
     evening := f (evening bb) |}.

(** [byBucket[b].push(g)] *)
Definition bucket_push (bb : Buckets (list HourGroup)) (b : bucket)
    (g : HourGroup) : Buckets (list HourGroup) :=
  match b with
  | Morning =>
      {| morning := morning bb ++ [g];
         afternoon := afternoon bb; evening := evening bb |}
  | Afternoon =>
      {| morning := morning bb;
         afternoon := afternoon bb ++ [g]; evening := evening bb |}
  | Evening =>
      {| morning := morning bb;
         afternoon := afternoon bb; evening := evening bb ++ [g] |}
  end.

Definition bucketOfHour (h : string) : bucket :=
  let hh := Number h in
  if ge hh 5 && le hh 11 then Morning
  else if ge hh 12 && le hh 17 then Afternoon
  else Evening.

(** The first statement of [buildSections]. *)
Definition cleaned (slots : list string) : list string :=
  Array_sort localeCompare
    (filter test_hhmm (Set_from (filter Boolean slots))).

(** [const [hh] = t.split(':'); (byHour[hh] ??= []).push(t)].  The times
    pushed have passed [test_hhmm], so [hh] is a pair of digits and never
    the name of an inherited property of the object. *)
Definition byHour_push (byHour : obj (list string)) (t : string)
    : obj (list string) :=
  let hh := split_first ":" t in
  match obj_get byHour hh with
  | Some l => obj_set byHour hh (l ++ [t])
  | None => obj_set byHour hh [t]
  end.

Definition byHour_of (cl : list string) : obj (list string) :=
  fold_left byHour_push cl [].

Definition byHour_list (byHour : obj (list string)) (hh : string)
    : list string :=
  match obj_get byHour hh with Some l => l | None => [] end.

Definition cmp_hour (a b : HourGroup) : number :=
  sub (Number (hour a)) (Number (hour b)).

Definition buildSections (slots : list string) : Buckets (list HourGroup) :=
  let byHour := byHour_of (cleaned slots) in
  let byBucket :=
    fold_left
      (fun bb hh =>
         bucket_push bb (bucketOfHour hh)
           {| hour := hh; list_ := byHour_list byHour hh |})
      (Object_keys byHour)
      {| morning := []; afternoon := []; evening := [] |} in
  bucket_map (Array_sort cmp_hour) byBucket.

(** *** Slot area of the page *)

(** A tab button of the [slot-tabs] bar. *)
Record Tab : Type :=
  { tab_key : bucket; tab_text : string; tab_active : bool }.

(** Children of [#slotsGrid]. *)
Inductive Node : Type :=
| SlotTabs (tabs : list Tab)
| Paragraph (text : string)
| HourSection (label count : string) (chips : list string) (open : bool).

(** [slotsState] *)
Record SlotsState : Type :=
  { sectionsByBucket : Buckets (list HourGroup);
    activeBucket : bucket;
    dayStr : string }.

Inductive LogEntry : Type :=
| Warn (tag : string) (e : JsError)
| Err (tag : string) (e : JsError).

Record Page : Type :=
  { slotsErr_hidden : bool;
    errDetail : string;
    slotsEmpty_hidden : bool;
    slotsGrid : list Node;
    slotsSkeleton_hidden : bool;
    toStep4_disabled : bool;
    inicioInput : string;
    slotsWrap_ready : bool;
    slotsState : SlotsState;
    console : list LogEntry }.

(** The page as the script finds it when it is loaded:
    [slotsState = { sectionsByBucket: {}, activeBucket: 'morning',
    dayStr: '' }]; a bucket missing from [sectionsByBucket] reads as the
    empty array in [renderSections]. *)
Definition initial_slotsState : SlotsState :=
  {| sectionsByBucket := {| morning := []; afternoon := []; evening := [] |};
     activeBucket := Morning;
     dayStr := "" |}.

Definition renderTabs (activeKey : bucket) (counts : Buckets Z) : Node :=
  let defs := [(Morning, "Manhã"); (Afternoon, "Tarde"); (Evening, "Noite")] in
  SlotTabs
    (map (fun d : bucket * string =>
            let c := bucket_get counts (fst d) in
            {| tab_key := fst d;
               tab_text :=
                 snd d ^^ (if truthy c then " (" ^^ String_of c ^^ ")" else "");
               tab_active := bucket_eqb (fst d) activeKey |})
         defs).

Definition hour_node (open : bool) (sec : HourGroup) : Node :=
  HourSection (hour sec ^^ ":00")
              (String_of (Z.of_nat (List.length (list_ sec))))
              (list_ sec) open.

Definition renderSections (bucketKey : bucket) (p : Page) : Page :=
  let st := {| sectionsByBucket := sectionsByBucket (slotsState p);
               activeBucket := bucketKey;
               dayStr := dayStr (slotsState p) |} in
  let kept := match slotsGrid p with [] => [] | tabs :: _ => [tabs] end in
  match bucket_get (sectionsByBucket st) bucketKey with
  | [] =>
      {| slotsErr_hidden := slotsErr_hidden p;
         errDetail := errDetail p;
         slotsEmpty_hidden := slotsEmpty_hidden p;
         slotsGrid := kept ++ [Paragraph "Sem horários nesse período."];
         slotsSkeleton_hidden := slotsSkeleton_hidden p;
         toStep4_disabled := toStep4_disabled p;
         inicioInput := inicioInput p;
         slotsWrap_ready := slotsWrap_ready p;
         slotsState := st;
         console := console p |}
  | first :: others =>
      {| slotsErr_hidden := slotsErr_hidden p;
         errDetail := errDetail p;
         slotsEmpty_hidden := slotsEmpty_hidden p;
         slotsGrid :=
           kept ++ hour_node true first :: map (hour_node false) others;
         slotsSkeleton_hidden := slotsSkeleton_hidden p;
         toStep4_disabled := toStep4_disabled p;
         inicioInput := inicioInput p;
         slotsWrap_ready := true;
         slotsState := st;
         console := console p |}
  end.

(** [SLOTS_URL()], also the [pathname] of the request URL (slugs are
    path-safe). *)
Definition SLOTS_URL (SHOP : string) (BARBER : option string) : string :=
  match BARBER with
  | Some b => if Boolean b then "/pub/" ^^ SHOP ^^ "/" ^^ b ^^ "/slots/"
              else "/pub/" ^^ SHOP ^^ "/slots/"
  | None => "/pub/" ^^ SHOP ^^ "/slots/"
  end.

(** *** fetchSlotsFor *)

(** The payload of the day-slot endpoint: [data.slots], an array of strings
    as the endpoint delivers it, [None] when the property is missing or
    falsy. *)
Definition SlotsPayload : Type := option (list string).

(** The statements before the request is awaited. *)
Definition fetchSlotsFor_reset (dateStr : string) (p : Page) : Page :=
  {| slotsErr_hidden := true;
     errDetail := "";
     slotsEmpty_hidden := true;
     slotsGrid := [];
     slotsSkeleton_hidden := false;
     toStep4_disabled := true;
     inicioInput := "";
     slotsWrap_ready := false;
     slotsState := {| sectionsByBucket := sectionsByBucket (slotsState p);
                      activeBucket := activeBucket (slotsState p);
                      dayStr := dateStr |};
     console := console p |}.

(** [catch(e)] then [finally] *)
Definition fetchSlotsFor_catch (e : JsError) (p : Page) : Page :=
  {| slotsErr_hidden := false;
     errDetail := if Boolean (err_message e) then err_message e
                  else Error_toString e;
     slotsEmpty_hidden := slotsEmpty_hidden p;
     slotsGrid := slotsGrid p;
     slotsSkeleton_hidden := true;
     toStep4_disabled := toStep4_disabled p;
     inicioInput := inicioInput p;
     slotsWrap_ready := slotsWrap_ready p;
     slotsState := slotsState p;
     console := console p ++ [Err "[slots] erro:" e] |}.

Definition count_of (secs : list HourGroup) : Z :=
  fold_left (fun acc s => acc + Z.of_nat (List.length (list_ s))) secs 0.

(** The bucket guessed from [now.getHours()]. *)
Definition guess_of (nowHours : Z) : bucket :=
  if nowHours <? 12 then Morning
  else if nowHours <? 18 then Afternoon else Evening.

Definition initialBucket_of (guess : bucket) (counts : Buckets Z) : bucket :=
  if truthy (bucket_get counts guess) then guess
  else if truthy (morning counts) then Morning
  else if truthy (afternoon counts) then Afternoon
  else Evening.

(** The branch that renders a non-empty [slots] array, then [finally]. *)
Definition fetchSlotsFor_render (slots : list string) (nowHours : Z)
    (p : Page) : Page :=
  let sections := buildSections slots in
  let counts := bucket_map count_of sections in
  let initialBucket := initialBucket_of (guess_of nowHours) counts in
  let tabs := renderTabs initialBucket counts in
  let p1 :=
    {| slotsErr_hidden := slotsErr_hidden p;
       errDetail := errDetail p;
       slotsEmpty_hidden := slotsEmpty_hidden p;
       slotsGrid := slotsGrid p ++ [tabs];
       slotsSkeleton_hidden := slotsSkeleton_hidden p;
       toStep4_disabled := toStep4_disabled p;
       inicioInput := inicioInput p;
       slotsWrap_ready := slotsWrap_ready p;
       slotsState := {| sectionsByBucket := sections;
                        activeBucket := activeBucket (slotsState p);
                        dayStr := dayStr (slotsState p) |};
       console := console p |} in
  let p2 := renderSections initialBucket p1 in
  {| slotsErr_hidden := slotsErr_hidden p2;
     errDetail := errDetail p2;
     slotsEmpty_hidden := slotsEmpty_hidden p2;
     slotsGrid := slotsGrid p2;
     slotsSkeleton_hidden := true;
     toStep4_disabled := toStep4_disabled p2;
     inicioInput := inicioInput p2;
     slotsWrap_ready := slotsWrap_ready p2;
     slotsState := slotsState p2;
     console := console p2 |}.

(** The branch of an empty [slots] array, then [finally]. *)
Definition fetchSlotsFor_empty (p : Page) : Page :=
  {| slotsErr_hidden := slotsErr_hidden p;
     errDetail := errDetail p;
     slotsEmpty_hidden := false;
     slotsGrid := slotsGrid p;
     slotsSkeleton_hidden := true;
     toStep4_disabled := toStep4_disabled p;
     inicioInput := inicioInput p;
     slotsWrap_ready := slotsWrap_ready p;
     slotsState := slotsState p;
     console := console p |}.

(** The statements run when the awaited request settles. *)
Definition fetchSlotsFor_settle (pathname : string)
    (res : FetchResult SlotsPayload) (nowHours : Z) (p : Page) : Page :=
  match res with
  | FetchFail e => fetchSlotsFor_catch e p
  | FetchOk resp =>
      if negb (ok resp) then
        match text resp with
        | TextFail e => fetchSlotsFor_catch e p
        | TextOk txt =>
            fetchSlotsFor_catch
              (Error ("HTTP " ^^ String_of (status resp) ^^ " em " ^^ pathname
                      ^^ " – " ^^ slice0 140 txt)) p
        end
      else
        match json resp with
        | JsonThrows e => fetchSlotsFor_catch e p
        | JsonData data =>
            let slots := match data with Some l => l | None => [] end in
            match slots with
            | [] => fetchSlotsFor_empty p
            | _ :: _ => fetchSlotsFor_render slots nowHours p
            end
        end
  end.

(** One run of [fetchSlotsFor(dateStr)] with no other handler running
    while the request is in flight. *)
Definition fetchSlotsFor (SHOP : string) (BARBER : option string)
    (dateStr : string) (res : FetchResult SlotsPayload) (nowHours : Z)
    (p : Page) : Page :=
  fetchSlotsFor_settle (SLOTS_URL SHOP BARBER) res nowHours
    (fetchSlotsFor_reset dateStr p).


(** *** precheckMonthAvailability *)

(** A [day-btn] of the calendar grid: [textContent] holds the decimal form
    of the day written by [renderCalendar], which [parseInt] reads back. *)
Record DayBtn : Type := { day : Z; day_disabled : bool }.

(** [data.days] of the month endpoint. *)
Inductive DaysField : Type :=
| DaysMissing                     (* absent or falsy: [|| []] applies *)
| DaysNotArray (e : JsError)      (* truthy without [map]: the call throws *)
| DaysArray (ds : list number).   (* the elements after [map(Number)] *)

(** [allowed.has(d)] *)
Definition allowed_has (allowed : list number) (d : Z) : bool :=
  existsb (fun x => match x with Num z => z =? d | NaN => false end) allowed.

Definition disable_unless (allowed : list number) (b : DayBtn) : DayBtn :=
  if allowed_has allowed (day b) then b
  else {| day := day b; day_disabled := true |}.

Definition precheckMonthAvailability (servico : string)
    (res : FetchResult DaysField) (calendarGrid : list DayBtn)
    (log : list LogEntry) : list DayBtn * list LogEntry :=
  if negb (Boolean servico) then (calendarGrid, log)
  else
    let caught e := (calendarGrid, log ++ [Warn "[days] erro:" e]) in
    match res with
    | FetchFail e => caught e
    | FetchOk resp =>
        match json resp with
        | JsonThrows e => caught e
        | JsonData DaysMissing => (map (disable_unless []) calendarGrid, log)
        | JsonData (DaysNotArray e) => caught e
        | JsonData (DaysArray ds) => (map (disable_unless ds) calendarGrid, log)
        end
    end.

(** *** Stepper and submission *)

Record Wizard : Type :=
  { visibleStep : Z;
    progressWidth : string;
    telefone : option string;     (* [#telefone].value, if the field exists *)
    servicoSel : option string;   (* [#servico].value, if the field exists *)
    submitFlag : string;          (* [#_submit].value *)
    alerts : list string }.

Definition setProgress (step : Z) : string :=
  if step =? 1 then "25%"
  else if step =? 2 then "50%"
  else if step =? 3 then "75%"
  else if step =? 4 then "100%"
  else "25%".

Definition showStep (n : Z) (w : Wizard) : Wizard :=
  {| visibleStep := n;
     progressWidth := setProgress n;
     telefone := telefone w;
     servicoSel := servicoSel w;
     submitFlag := submitFlag w;
     alerts := alerts w |}.

Definition alert (msg : string) (w : Wizard) : Wizard :=
  {| visibleStep := visibleStep w;
     progressWidth := progressWidth w;
     telefone := telefone w;
     servicoSel := servicoSel w;
     submitFlag := submitFlag w;
     alerts := alerts w ++ [msg] |}.

(** The click handler of [#submitBtn]: the page after it, and whether it
    called [e.preventDefault()]. *)
Definition submitBtn_click (w : Wizard) : Wizard * bool :=
  let telOk := match telefone w with
               | Some v => Boolean (trim v)
               | None => false
               end in
  let srvOk := match servicoSel w with
               | Some v => Boolean v
               | None => false
               end in
  if negb telOk || negb srvOk then
    (alert "Preencha WhatsApp e Serviço." (showStep 1 w), true)
  else
    ({| visibleStep := visibleStep w;
        progressWidth := progressWidth w;
        telefone := telefone w;
        servicoSel := servicoSel w;
        submitFlag := "1";
        alerts := alerts w |}, false).

(** The default action of the click, the post of [#publicForm], takes
    place unless the handler prevented it. *)
Definition form_posted (r : Wizard * bool) : bool := negb (snd r).

(** *** Phone mask *)

(** The [input] handler of [#telefone]: the value it writes back. *)
Definition telefone_input (value : string) : string :=
  let v := slice 0 11 (remove_non_digits value) in
  if negb (Boolean v) then ""
  else if (String.length v <=? 10)%nat then
    "(" ^^ slice 0 2 v ^^ ") " ^^ slice 2 6 v ^^ "-" ^^ slice_from 6 v
  else
    "(" ^^ slice 0 2 v ^^ ") " ^^ slice 2 3 v ^^ " " ^^ slice 3 7 v ^^ "-"
    ^^ slice_from 7 v.

(** *** Calendar *)

Definition pad (n : Z) : string := padStart2 (String_of n).

(** The [dateStr] of the button of day [d] in month [m] (from 0) of year
    [y]. *)
Definition dateStr_of (y m d : Z) : string :=
  String_of y ^^ "-" ^^ pad (m + 1) ^^ "-" ^^ pad d.

(** The [day-btn] buttons after [renderCalendar].  The answers of the
    host's [Date] are taken as given: [days] is
    [new Date(y, m + 1, 0).getDate()] and [past d] is [thisDate < today]
    for day [d].  Without a selected service the grid is left as it is. *)
Definition renderCalendar (servico : string) (days : nat) (past : Z -> bool)
    (calendarGrid : list DayBtn) : list DayBtn :=
  if negb (Boolean servico) then calendarGrid
  else
    map (fun d => {| day := Z.of_nat d; day_disabled := past (Z.of_nat d) |})
        (seq 1 days).

(** *** Choosing a time *)

(** The slot area with what the slot buttons add to it: the summary line
    and the buttons carrying the [selected] class, each named by the
    position of its hour section in the grid and its time. *)
Record SlotArea : Type :=
  { page : Page;
    resDataHora : string;
    marks : list (nat * string) }.

(** The click handler of the slot button [t] of the hour section at
    position [i].  [fmtBR iso] is [fmtBR.format(new Date(iso))], [None]
    when it throws. *)
Definition slot_click (fmtBR : string -> option string) (i : nat)
    (t : string) (a : SlotArea) : SlotArea :=
  let p := page a in
  let iso := dayStr (slotsState p) ^^ "T" ^^ t ^^ ":00" in
  {| page :=
       {| slotsErr_hidden := slotsErr_hidden p;
          errDetail := errDetail p;
          slotsEmpty_hidden := slotsEmpty_hidden p;
          slotsGrid := slotsGrid p;
          slotsSkeleton_hidden := slotsSkeleton_hidden p;
          toStep4_disabled := false;
          inicioInput := iso;
          slotsWrap_ready := slotsWrap_ready p;
          slotsState := slotsState p;
          console := console p |};
     resDataHora :=
       match fmtBR iso with
       | Some shown => shown
       | None => dayStr (slotsState p) ^^ " " ^^ t
       end;
     marks := filter (fun m => negb (Nat.eqb (fst m) i)) (marks a) ++ [(i, t)] |}.

End Intake.

(** ** solicitacoes.js: staff action poster *)

Module Staff.
Import JS.

Record Button : Type :=
  { dataset : obj string; disabled : bool; textContent : string }.

(** What the operator and the network see, in order. *)
Inductive Event : Type :=
| Prompted (message default : string)
| AskedConfirm (message : string)
| Posted (url : string) (form : list (string * string))
| Reloaded
| Alerted (message : string).

(** The answers an action awaits: [prompt] gives [None] when cancelled,
    [confirm] gives [false] when cancelled. *)
Record Env : Type :=
  { prompt_answer : option string;
    confirm_answer : bool;
    post_result : FetchResult unit }.

Record World : Type := { btn : Button; trace : list Event }.

Inductive Outcome (A : Type) : Type :=
| Returned (a : A)
| Thrown (e : JsError).
Arguments Returned {A}.
Arguments Thrown {A}.

(** Computations that read and write the button, append to the trace and
    may throw. *)
Definition M (A : Type) : Type := World -> Outcome A * World.

Definition ret {A} (a : A) : M A := fun w => (Returned a, w).

Definition bind {A B} (m : M A) (k : A -> M B) : M B :=
  fun w =>
    match m w with
    | (Returned a, w') => k a w'
    | (Thrown e, w') => (Thrown e, w')
    end.

Definition throw {A} (e : JsError) : M A := fun w => (Thrown e, w).

Declare Scope staff_scope.
Delimit Scope staff_scope with staff.
Notation "x <- m ;; k" := (bind m (fun x => k))
  (at level 100, m at next level, right associativity) : staff_scope.
Notation "m ;; k" := (bind m (fun _ => k))
  (at level 100, right associativity) : staff_scope.
Local Open Scope staff_scope.

Definition emit (ev : Event) : M unit :=
  fun w => (Returned tt, {| btn := btn w; trace := trace w ++ [ev] |}).

Definition data (key : string) : M (option string) :=
  fun w => (Returned (obj_get (dataset (btn w)) key), w).

Definition set_disabled (b : bool) : M unit :=
  fun w => (Returned tt,
            {| btn := {| dataset := dataset (btn w);
                         disabled := b;
                         textContent := textContent (btn w) |};
               trace := trace w |}).

Definition set_textContent (s : string) : M unit :=
  fun w => (Returned tt,
            {| btn := {| dataset := dataset (btn w);
                         disabled := disabled (btn w);
                         textContent := s |};
               trace := trace w |}).

(** [try { body } catch (e) { handler e } finally { fin }] *)
Definition try_catch_finally (body : M unit) (handler : JsError -> M unit)
    (fin : M unit) : M unit :=
  fun w =>
    match body w with
    | (Returned _, w1) => fin w1
    | (Thrown e, w1) =>
        match handler e w1 with
        | (Returned _, w2) => fin w2
        | (Thrown e', w2) =>
            match fin w2 with
            | (Returned _, w3) => (Thrown e', w3)
            | thrown => thrown
            end
        end
    end.

(** [x || ''] *)
Definition or_empty (x : option string) : string :=
  match x with Some v => v | None => "" end.

(** [postForm(url, dataObj)]; the parsed answer is not used by a caller.
    The form is kept as its list of entries. *)
Definition postForm (net : FetchResult unit) (url : option string)
    (dataObj : list (string * string)) : M unit :=
  if negb (Boolean (or_empty url)) then throw (Error "URL ausente")
  else
    emit (Posted (or_empty url) dataObj) ;;
    match net with
    | FetchFail e => throw e
    | FetchOk resp =>
        if negb (ok resp) then
          match text resp with
          | TextFail e => throw e
          | TextOk txt =>
              throw (Error ("HTTP " ^^ String_of (status resp) ^^ " - " ^^ txt))
          end
        else ret tt
    end.

Definition openConfirm (env : Env) : M unit :=
  try_catch_finally
    (url <- data "confirmUrl" ;;
     servicoId <- data "servicoId" ;;
     precoCotado <- data "preco" ;;
     inicioAttr <- data "inicio" ;;
     let payload :=
       [("servico_id", or_empty servicoId);
        ("preco_cotado", or_empty precoCotado)]
       ++ (if Boolean (or_empty inicioAttr)
           then [("inicio", or_empty inicioAttr)] else []) in
     set_disabled true ;;
     set_textContent "Confirmando..." ;;
     postForm (post_result env) url payload ;;
     emit Reloaded)
    (fun e => emit (Alerted ("Erro ao confirmar: " ^^ err_message e)))
    (set_disabled false ;; set_textContent "✅ Confirmar").

Definition openDeny (env : Env) : M unit :=
  try_catch_finally
    (url <- data "denyUrl" ;;
     emit (Prompted "Motivo da negativa (opcional):" "") ;;
     let motivo := or_empty (prompt_answer env) in
     set_disabled true ;;
     set_textContent "Negando..." ;;
     postForm (post_result env) url [("motivo", motivo)] ;;
     emit Reloaded)
    (fun e => emit (Alerted ("Erro ao negar: " ^^ err_message e)))
    (set_disabled false ;; set_textContent "❌ Negar").

Definition submitFinalize (env : Env) : M unit :=
  try_catch_finally
    (url <- data "finalizeUrl" ;;
     emit (AskedConfirm "Finalizar este atendimento?") ;;
     if negb (confirm_answer env) then ret tt
     else
       set_disabled true ;;
       set_textContent "Finalizando..." ;;
       postForm (post_result env) url [] ;;
       emit Reloaded)
    (fun e => emit (Alerted ("Erro ao finalizar: " ^^ err_message e)))
    (set_disabled false ;; set_textContent "🏁 Finalizar").

Definition submitNoShow (env : Env) : M unit :=
  try_catch_finally
    (url <- data "noshowUrl" ;;
     emit (AskedConfirm "Marcar como no-show?") ;;
     if negb (confirm_answer env) then ret tt
     else
       set_disabled true ;;
       set_textContent "Marcando..." ;;
       postForm (post_result env) url [] ;;
       emit Reloaded)
    (fun e => emit (Alerted ("Erro ao marcar no-show: " ^^ err_message e)))
    (set_disabled false ;; set_textContent "🚫 No-show").

(** The four functions the script exposes on [window]. *)
Inductive Action : Type := Confirm | Deny | Finalize | NoShow.

Definition handler (a : Action) : Env -> M unit :=
  match a with
  | Confirm => openConfirm
  | Deny => openDeny
  | Finalize => submitFinalize
  | NoShow => submitNoShow
  end.

(** A click: the handler runs on the clicked button from an empty trace. *)
Definition click (a : Action) (env : Env) (b : Button) : World :=
  snd (handler a env {| btn := b; trace := [] |}).

End Staff.

(** * Vocabulary of the properties *)

Import JS Intake Staff.

(** The order a comparator decides between two elements. *)
Definition decides {A} (cmp : A -> A -> number) (R : A -> A -> Prop)
    (x y : A) : Prop :=
  if positive (cmp x y) then R y x else R x y.

Definition str_lt (a b : string) : Prop := String.compare a b = Lt.

Definition hourOf (t : string) : string := split_first ":" t.

Definition hour_is (hh t : string) : bool := String.eqb (hourOf t) hh.

Definition two_digits (hh : string) : Prop :=
  exists a b, hh = String a (String b EmptyString)
              /\ is_digit a = true /\ is_digit b = true.

Definition nonempty {A} (l : list A) : option (list A) :=
  match l with [] => None | _ :: _ => Some l end.

(** What [byHour] holds after the times [cl] have been pushed. *)
Definition byHour_inv (o : obj (list string)) (cl : list string) : Prop :=
  NoDup (map fst o)
  /\ forall k, obj_get o k = nonempty (filter (hour_is k) cl).

(** The group built for the key [hh]. *)
Definition group_of (cl : list string) (hh : string) : HourGroup :=
  {| hour := hh; list_ := filter (hour_is hh) cl |}.

(** [t] is listed in a group of bucket [b]. *)
Definition assigned (bs : Buckets (list HourGroup)) (t : string) (b : bucket)
    : Prop :=
  exists g, In g (bucket_get bs b) /\ In t (list_ g).

(** Ascending hours. *)
Definition hour_lt (g1 g2 : HourGroup) : Prop :=
  match Number (hour g1), Number (hour g2) with
  | Num a, Num b => a < b
  | _, _ => False
  end.

(** The first bucket with entries, in the order morning, afternoon,
    evening. *)
Definition first_nonempty (counts : Buckets Z) : option bucket :=
  find (fun b => truthy (bucket_get counts b)) [Morning; Afternoon; Evening].

(** A page before any day was picked, and sample answers of the server. *)
Definition page0 : Page :=
  {| slotsErr_hidden := true;
     errDetail := "";
     slotsEmpty_hidden := true;
     slotsGrid := [];
     slotsSkeleton_hidden := true;
     toStep4_disabled := true;
     inicioInput := "";
     slotsWrap_ready := false;
     slotsState := initial_slotsState;
     console := [] |}.

Definition answer_slots (slots : list string) : Response SlotsPayload :=
  {| ok := true; status := 200; text := TextOk "";
     json := JsonData (Some slots) |}.

Definition answer_500 (body : string) : Response SlotsPayload :=
  {| ok := false; status := 500; text := TextOk body;
     json := JsonThrows {| err_name := "SyntaxError";
                           err_message := "Unexpected token" |} |}.

(** [resp.ok] is the host's flag for a status in the range 200 to 299. *)
Definition ok_is_2xx {D} (resp : Response D) : Prop :=
  ok resp = ((200 <=? status resp) && (status resp <=? 299)).

(** The contact value, trimmed, is empty (or the field is missing). *)
Definition contact_empty (w : Wizard) : Prop :=
  match telefone w with Some v => trim v = "" | None => True end.

(** No service is selected. *)
Definition no_service (w : Wizard) : Prop :=
  match servicoSel w with Some v => v = "" | None => True end.

Definition wizard_filled : Wizard :=
  {| visibleStep := 4; progressWidth := "100%";
     telefone := Some "(11) 9 8888-7777"; servicoSel := Some "3";
     submitFlag := ""; alerts := [] |}.

Definition wizard_no_service : Wizard :=
  {| visibleStep := 4; progressWidth := "100%";
     telefone := Some "(11) 9 8888-7777"; servicoSel := Some "";
     submitFlag := ""; alerts := [] |}.

Definition march_grid : list DayBtn :=
  [ {| day := 1; day_disabled := true |};
    {| day := 2; day_disabled := false |};
    {| day := 3; day_disabled := false |} ].

Definition network_down : JsError :=
  {| err_name := "TypeError"; err_message := "Failed to fetch" |}.

Definition is_post (ev : Event) : bool :=
  match ev with Posted _ _ => true | _ => false end.

Definition is_dialog (ev : Event) : bool :=
  match ev with Prompted _ _ | AskedConfirm _ => true | _ => false end.

(** The network requests of a run. *)
Definition posts (w : World) : list Event := filter is_post (trace w).

(** The operator dismissed the dialog the action opens. *)
Definition dialog_cancelled (a : Action) (env : Env) : Prop :=
  match a with
  | Confirm => False
  | Deny => prompt_answer env = None
  | Finalize | NoShow => confirm_answer env = false
  end.

(** The label each handler writes in its [finally] block, and the prefix of
    its alert. *)
Definition idle_label (a : Action) : string :=
  match a with
  | Confirm => "✅ Confirmar"
  | Deny => "❌ Negar"
  | Finalize => "🏁 Finalizar"
  | NoShow => "🚫 No-show"
  end.

Definition alert_prefix (a : Action) : string :=
  match a with
  | Confirm => "Erro ao confirmar: "
  | Deny => "Erro ao negar: "
  | Finalize => "Erro ao finalizar: "
  | NoShow => "Erro ao marcar no-show: "
  end.

(** Sample buttons of the staff dashboard and sample answers. *)
Definition deny_button : Button :=
  {| dataset := [("denyUrl", "/solicitacoes/7/negar/")];
     disabled := false;
     textContent := "❌ Negar" |}.

Definition env_dismissed_ok : Env :=
  {| prompt_answer := None;
     confirm_answer := false;
     post_result := FetchOk {| ok := true; status := 200; text := TextOk "{}";
                               json := JsonData tt |} |}.

Definition finalize_button : Button :=
  {| dataset := [("finalizeUrl", "/agendamentos/12/finalizar/")];
     disabled := false;
     textContent := "🏁 Finalizar" |}.

(** What follows the request in the trace, by the answer of the server. *)
Definition after_post (a : Action) (net : FetchResult unit) : list Event :=
  match net with
  | FetchFail e => [Alerted (alert_prefix a ^^ err_message e)]
  | FetchOk resp =>
      if ok resp then [Reloaded]
      else match text resp with
           | TextOk txt =>
               [Alerted (alert_prefix a
                         ^^ "HTTP " ^^ String_of (status resp) ^^ " - " ^^ txt)]
           | TextFail e => [Alerted (alert_prefix a ^^ err_message e)]
           end
  end.

(** The run ended in the failure [e]: button enabled again with the idle
    label, the message alerted, no reload. *)
Definition failed_with (a : Action) (w : World) (e : JsError) : Prop :=
  disabled (btn w) = false
  /\ textContent (btn w) = idle_label a
  /\ In (Alerted (alert_prefix a ^^ err_message e)) (trace w)
  /\ ~ In Reloaded (trace w).

(** A confirm button rendered without the emoji of the handler's literal. *)
Definition plain_confirm_button : Button :=
  {| dataset := [("confirmUrl", "/solicitacoes/7/confirmar/");
                 ("servicoId", "3"); ("preco", "45.00")];
     disabled := false;
     textContent := "Confirmar" |}.

Definition env_server_error : Env :=
  {| prompt_answer := None;
     confirm_answer := true;
     post_result := FetchOk {| ok := false; status := 500;
                               text := TextOk "Server Error (500)";
                               json := JsonThrows (Error "not JSON") |} |}.

Definition confirm_button : Button :=
  {| dataset := [("confirmUrl", "/solicitacoes/7/confirmar/");
                 ("servicoId", "3"); ("preco", "45.00")];
     disabled := false;
     textContent := "✅ Confirmar" |}.

(** The times on the slot buttons of the grid, top to bottom. *)
Definition displayed_times (p : Page) : list string :=
  flat_map (fun n => match n with
                     | HourSection _ _ chips _ => chips
                     | _ => []
                     end)
           (slotsGrid p).

(** The first child of the grid is the tab bar. *)
Definition has_tabs (p : Page) : Prop :=
  match slotsGrid p with SlotTabs _ :: _ => True | _ => False end.

(** The hour of [t] belongs to bucket [b]. *)
Definition in_bucket (b : bucket) (t : string) : bool :=
  bucket_eqb (bucketOfHour (hourOf t)) b.

(** The times of a list of groups, in order. *)
Definition times_of (secs : list HourGroup) : list string :=
  List.concat (map list_ secs).

(** A series of clicks on tabs. *)
Definition tab_clicks (bs : list bucket) (p : Page) : Page :=
  fold_left (fun q b => renderSections b q) bs p.

(** The string holds a digit. *)
Fixpoint has_digit (s : string) : bool :=
  match s with
  | EmptyString => false
  | String c s' => is_digit c || has_digit s'
  end.

(** Four digits, a dash, two digits, a dash, two digits. *)
Definition is_date (s : string) : bool :=
  match list_ascii_of_string s with
  | [y1; y2; y3; y4; d1; m1; m2; d2; a1; a2] =>
      is_digit y1 && is_digit y2 && is_digit y3 && is_digit y4
      && Ascii.eqb d1 "-" && is_digit m1 && is_digit m2
      && Ascii.eqb d2 "-" && is_digit a1 && is_digit a2
  | _ => false
  end.

(** The dialog an action opens, whether the run goes on after it, and the
    form it posts. *)
Definition dialog_of (a : Action) : list Event :=
  match a with
  | Confirm => []
  | Deny => [Prompted "Motivo da negativa (opcional):" ""]
  | Finalize => [AskedConfirm "Finalizar este atendimento?"]
  | NoShow => [AskedConfirm "Marcar como no-show?"]
  end.

Definition goes_on (a : Action) (env : Env) : bool :=
  match a with
  | Confirm | Deny => true
  | Finalize | NoShow => confirm_answer env
  end.

Definition form_of (a : Action) (env : Env) (b : Button)
    : list (string * string) :=
  match a with
  | Confirm =>
      [("servico_id", or_empty (obj_get (dataset b) "servicoId"));
       ("preco_cotado", or_empty (obj_get (dataset b) "preco"))]
      ++ (if Boolean (or_empty (obj_get (dataset b) "inicio"))
          then [("inicio", or_empty (obj_get (dataset b) "inicio"))]
          else [])
  | Deny => [("motivo", or_empty (prompt_answer env))]
  | Finalize | NoShow => []
  end.

Definition url_key (a : Action) : string :=
  match a with
  | Confirm => "confirmUrl"
  | Deny => "denyUrl"
  | Finalize => "finalizeUrl"
  | NoShow => "noshowUrl"
  end.

(** What [renderSections] puts under the tab bar for a list of groups. *)
Definition section_nodes (secs : list HourGroup) : list Node :=
  match secs with
  | [] => [Paragraph "Sem horários nesse período."]
  | first :: others => hour_node true first :: map (hour_node false) others
  end.

(** The times on the buttons of a list of nodes. *)
Definition node_times (ns : list Node) : list string :=
  flat_map (fun n => match n with
                     | HourSection _ _ chips _ => chips
                     | _ => []
                     end) ns.

(** The three ways a day-slot fetch can leave the slot area. *)
Definition shows_error (p : Page) : Prop :=
  slotsErr_hidden p = false /\ slotsEmpty_hidden p = true /\ slotsGrid p = [].

Definition shows_empty (p : Page) : Prop :=
  slotsErr_hidden p = true /\ slotsEmpty_hidden p = false /\ slotsGrid p = [].

Definition shows_tabs (p : Page) : Prop :=
  slotsErr_hidden p = true /\ slotsEmpty_hidden p = true
  /\ exists tabs body,
       slotsGrid p = SlotTabs tabs :: body
       /\ map tab_key tabs = [Morning; Afternoon; Evening]
       /\ body <> [].

(** The sample page after a fetch at 14h that offers 09:00 and 14:30. *)
Definition page_fetched : Page :=
  fetchSlotsFor "shop" None "2025-03-10"
    (FetchOk (answer_slots ["09:00"; "14:30"])) 14 page0.

(** Every character of the string passes [f]. *)
Fixpoint str_all (f : ascii -> bool) (s : string) : bool :=
  match s with
  | EmptyString => true
  | String c s' => f c && str_all f s'
  end.

(** The digits typed into the phone field that the mask keeps. *)
Definition kept_digits (value : string) : string :=
  slice 0 11 (remove_non_digits value).

(** Exactly two digits; exactly four digits. *)
Definition digits2 (s : string) : bool :=
  match s with
  | String a (String b EmptyString) => is_digit a && is_digit b
  | _ => false
  end.

Definition digits4 (s : string) : bool :=
  match s with
  | String a (String b (String c (String d EmptyString))) =>
      is_digit a && is_digit b && is_digit c && is_digit d
  | _ => false
  end.

(** [pad n] is two digits that read back as [n]. *)
Definition pad_ok (n : Z) : bool :=
  digits2 (pad n)
  && match Number (pad n) with Num z => z =? n | NaN => false end.

(** * Properties *)

(** ** Sorting *)

Section SortFacts.
Context {A : Type} (cmp : A -> A -> number).

Lemma sort_insert_perm (x : A) (l : list A) :
  Permutation (sort_insert cmp x l) (x :: l).
Proof.
  induction l as [|y l IH]; simpl.
  - apply Permutation_refl.
  - destruct (positive (cmp x y)).
    + eapply perm_trans; [apply perm_skip, IH | apply perm_swap].
    + apply Permutation_refl.
Qed.

Lemma Array_sort_perm (l : list A) : Permutation (Array_sort cmp l) l.
Proof.
  induction l as [|x l IH]; simpl.
  - constructor.
  - eapply perm_trans; [apply sort_insert_perm | now apply perm_skip].
Qed.

Lemma Array_sort_In (l : list A) (x : A) :
  In x (Array_sort cmp l) <-> In x l.
Proof.
  split; apply Permutation_in;
    [apply Array_sort_perm | apply Permutation_sym, Array_sort_perm].
Qed.

Lemma Array_sort_NoDup (l : list A) : NoDup l -> NoDup (Array_sort cmp l).
Proof.
  intro H. eapply Permutation_NoDup; [|exact H].
  apply Permutation_sym, Array_sort_perm.
Qed.

Variable R : A -> A -> Prop.
Hypothesis R_trans : forall x y z, R x y -> R y z -> R x z.

Lemma sort_insert_sorted (x : A) (l : list A) :
  StronglySorted R l ->
  (forall y, In y l -> decides cmp R x y) ->
  StronglySorted R (sort_insert cmp x l).
Proof.
  induction l as [|y l IH]; simpl; intros Hs Hd.
  - repeat constructor.
  - pose proof (Hd y (or_introl eq_refl)) as Hxy. unfold decides in Hxy.
    inversion Hs as [|? ? Hs' Hall]; subst.
    destruct (positive (cmp x y)).
    + constructor.
      * apply IH; auto.
      * rewrite Forall_forall in *. intros z Hz.
        apply (Permutation_in _ (sort_insert_perm x l)) in Hz.
        destruct Hz as [<-|Hz]; auto.
    + constructor; auto. constructor; auto.
      rewrite Forall_forall in *. intros z Hz. eauto.
Qed.

Lemma Array_sort_sorted (l : list A) :
  NoDup l ->
  (forall x y, In x l -> In y l -> x <> y -> decides cmp R x y) ->
  StronglySorted R (Array_sort cmp l).
Proof.
  induction l as [|x l IH]; simpl; intros Hnd Hd.
  - constructor.
  - inversion Hnd as [|? ? Hx Hnd']; subst.
    apply sort_insert_sorted.
    + apply IH; [assumption|]. intros; apply Hd; simpl; auto.
    + intros y Hy. apply (proj1 (Array_sort_In l y)) in Hy.
      apply Hd; [left; reflexivity | right; assumption |].
      intros Heq; subst y; contradiction.
Qed.
End SortFacts.

Lemma StronglySorted_filter {A} (R : A -> A -> Prop) (f : A -> bool) l :
  StronglySorted R l -> StronglySorted R (filter f l).
Proof.
  induction 1 as [|x l Hs IH Hall]; simpl.
  - constructor.
  - destruct (f x); auto. constructor; auto.
    rewrite Forall_forall in *. intros y Hy.
    apply filter_In in Hy. apply Hall, Hy.
Qed.

(** ** Code-unit order on strings *)

Lemma str_lt_trans (a b c : string) : str_lt a b -> str_lt b c -> str_lt a c.
Proof.
  unfold str_lt. revert b c.
  induction a as [|x a IH]; intros [|y b] [|z c]; simpl; try easy.
  unfold Ascii.compare.
  destruct (N.compare_spec (N_of_ascii x) (N_of_ascii y)) as [Hxy|Hxy|Hxy];
    destruct (N.compare_spec (N_of_ascii y) (N_of_ascii z)) as [Hyz|Hyz|Hyz];
    destruct (N.compare_spec (N_of_ascii x) (N_of_ascii z)) as [Hxz|Hxz|Hxz];
    try easy; try lia; eauto.
Qed.

Lemma localeCompare_decides (a b : string) :
  a <> b -> decides localeCompare str_lt a b.
Proof.
  intro Hne. unfold decides, localeCompare, str_lt.
  destruct (String.compare a b) eqn:E; simpl; auto.
  - apply String.compare_eq_iff in E. contradiction.
  - rewrite String.compare_antisym, E. reflexivity.
Qed.

(** ** Sets in insertion order *)

Lemma Set_has_In (s : list string) (x : string) :
  Set_has s x = true <-> In x s.
Proof.
  unfold Set_has. rewrite existsb_exists. split.
  - intros [y [Hy E]]. apply String.eqb_eq in E. now subst.
  - intro H. exists x. split; auto. apply String.eqb_refl.
Qed.

Lemma Set_add_In (s : list string) (x y : string) :
  In y (Set_add s x) <-> In y s \/ y = x.
Proof.
  unfold Set_add. destruct (Set_has s x) eqn:E.
  - apply Set_has_In in E. split; [auto|]. intros [H| ->]; auto.
  - rewrite in_app_iff. simpl. intuition.
Qed.

Lemma Set_add_NoDup (s : list string) (x : string) :
  NoDup s -> NoDup (Set_add s x).
Proof.
  intro H. unfold Set_add. destruct (Set_has s x) eqn:E; auto.
  apply NoDup_app; auto.
  - constructor; [intros []|constructor].
  - intros y Hy [<-|[]].
    apply Set_has_In in Hy. congruence.
Qed.

Lemma Set_fold_In (xs acc : list string) (y : string) :
  In y (fold_left Set_add xs acc) <-> In y acc \/ In y xs.
Proof.
  revert acc. induction xs as [|x xs IH]; intro acc; simpl.
  - intuition.
  - rewrite IH, Set_add_In. intuition.
Qed.

Lemma Set_fold_NoDup (xs acc : list string) :
  NoDup acc -> NoDup (fold_left Set_add xs acc).
Proof.
  revert acc. induction xs as [|x xs IH]; intros acc H; simpl; auto.
  apply IH, Set_add_NoDup, H.
Qed.

Lemma Set_from_In (xs : list string) (y : string) :
  In y (Set_from xs) <-> In y xs.
Proof. unfold Set_from. rewrite Set_fold_In. simpl. intuition. Qed.

Lemma Set_from_NoDup (xs : list string) : NoDup (Set_from xs).
Proof. apply Set_fold_NoDup. constructor. Qed.

(** Dropping the falsy entries before or after building the set gives the
    same set. *)
Lemma Set_has_filter_Boolean (s : list string) (x : string) :
  Boolean x = true -> Set_has (filter Boolean s) x = Set_has s x.
Proof.
  intro Hx. induction s as [|y s IH]; simpl; auto.
  destruct (Boolean y) eqn:Ey; simpl.
  - now rewrite IH.
  - rewrite IH. destruct (String.eqb x y) eqn:E; auto.
    apply String.eqb_eq in E. congruence.
Qed.

Lemma Set_fold_filter_Boolean (xs acc : list string) :
  filter Boolean (fold_left Set_add xs acc)
  = fold_left Set_add (filter Boolean xs) (filter Boolean acc).
Proof.
  revert acc. induction xs as [|x xs IH]; intro acc; simpl; auto.
  rewrite IH. destruct (Boolean x) eqn:Ex; simpl; f_equal; unfold Set_add.
  - rewrite Set_has_filter_Boolean by assumption.
    destruct (Set_has acc x); auto.
    rewrite filter_app. simpl. now rewrite Ex.
  - destruct (Set_has acc x); auto.
    rewrite filter_app. simpl. rewrite Ex. apply app_nil_r.
Qed.

Lemma test_hhmm_Boolean (t : string) : test_hhmm t = true -> Boolean t = true.
Proof. destruct t; simpl; [discriminate|reflexivity]. Qed.

Lemma filter_hhmm_Boolean (l : list string) :
  filter test_hhmm (filter Boolean l) = filter test_hhmm l.
Proof.
  induction l as [|x l IH]; simpl; auto.
  destruct (Boolean x) eqn:Ex; simpl.
  - now rewrite IH.
  - rewrite IH. destruct (test_hhmm x) eqn:Et; auto.
    apply test_hhmm_Boolean in Et. congruence.
Qed.

(** ** The cleaned slot list *)

Lemma cleaned_pipeline (slots : list string) :
  cleaned slots = Array_sort localeCompare (filter test_hhmm (Set_from slots)).
Proof.
  unfold cleaned, Set_from. f_equal.
  rewrite <- (filter_hhmm_Boolean (fold_left Set_add slots [])).
  now rewrite Set_fold_filter_Boolean.
Qed.

Lemma cleaned_In (slots : list string) (t : string) :
  In t (cleaned slots) <-> In t slots /\ test_hhmm t = true.
Proof.
  rewrite cleaned_pipeline, Array_sort_In, filter_In, Set_from_In.
  reflexivity.
Qed.

Lemma cleaned_NoDup (slots : list string) : NoDup (cleaned slots).
Proof.
  unfold cleaned. apply Array_sort_NoDup, NoDup_filter, Set_from_NoDup.
Qed.

Lemma cleaned_sorted (slots : list string) :
  StronglySorted str_lt (cleaned slots).
Proof.
  unfold cleaned. apply Array_sort_sorted.
  - exact str_lt_trans.
  - apply NoDup_filter, Set_from_NoDup.
  - intros x y _ _ Hne. now apply localeCompare_decides.
Qed.

Lemma cleaned_nil (slots : list string) :
  (forall t, In t slots -> test_hhmm t = false) -> cleaned slots = [].
Proof.
  intro H. destruct (cleaned slots) as [|t l] eqn:E; auto.
  assert (Ht : In t (cleaned slots)) by (rewrite E; now left).
  apply cleaned_In in Ht. destruct Ht as [Hin Hv].
  rewrite (H t Hin) in Hv. discriminate.
Qed.

(** ** Hours of valid times *)

Lemma is_digit_range (c : ascii) :
  is_digit c = true -> 0 <= digit_value c <= 9.
Proof.
  unfold is_digit, digit_value. intro H.
  apply andb_prop in H. destruct H as [H1 H2].
  apply N.leb_le in H1, H2. lia.
Qed.

Lemma is_digit_not_colon (c : ascii) :
  is_digit c = true -> Ascii.eqb c ":" = false.
Proof.
  intro H. destruct (Ascii.eqb c ":") eqn:E; auto.
  apply Ascii.eqb_eq in E. subst c. discriminate H.
Qed.

Lemma digit_value_inj (a b : ascii) : digit_value a = digit_value b -> a = b.
Proof.
  unfold digit_value. intro H.
  rewrite <- (ascii_N_embedding a), <- (ascii_N_embedding b).
  f_equal. lia.
Qed.

Lemma hourOf_valid (t : string) :
  test_hhmm t = true -> two_digits (hourOf t).
Proof.
  destruct t as [|a [|b [|c [|d [|e [|? ?]]]]]]; cbn [test_hhmm];
    try discriminate.
  intro H. do 4 (apply andb_prop in H; destruct H as [H ?]).
  unfold hourOf. cbn [split_first].
  rewrite (is_digit_not_colon a), (is_digit_not_colon b) by assumption.
  match goal with E : Ascii.eqb c ":" = true |- _ => rewrite E end.
  exists a, b. auto.
Qed.

Lemma Number_two_digits (a b : ascii) :
  is_digit a = true -> is_digit b = true ->
  Number (String a (String b EmptyString))
  = Num (10 * digit_value a + digit_value b).
Proof.
  intros Ha Hb. unfold Number. simpl. rewrite Ha, Hb. f_equal.
Qed.

Lemma Number_hour (hh : string) :
  two_digits hh -> exists h, Number hh = Num h /\ 0 <= h <= 99.
Proof.
  intros (a & b & -> & Ha & Hb). rewrite Number_two_digits by assumption.
  eexists; split; [reflexivity|].
  apply is_digit_range in Ha, Hb. lia.
Qed.

Lemma Number_hour_inj (h1 h2 : string) :
  two_digits h1 -> two_digits h2 -> Number h1 = Number h2 -> h1 = h2.
Proof.
  intros (a & b & -> & Ha & Hb) (c & d & -> & Hc & Hd).
  rewrite !Number_two_digits by assumption. intro E.
  assert (E' : 10 * digit_value a + digit_value b
               = 10 * digit_value c + digit_value d) by congruence.
  pose proof (is_digit_range _ Ha). pose proof (is_digit_range _ Hb).
  pose proof (is_digit_range _ Hc). pose proof (is_digit_range _ Hd).
  assert (digit_value a = digit_value c) by lia.
  assert (digit_value b = digit_value d) by lia.
  f_equal; [|f_equal]; now apply digit_value_inj.
Qed.

(** ** Objects *)

Section ObjFacts.
Context {V : Type}.

Lemma obj_get_None (o : obj V) (k : string) :
  obj_get o k = None <-> ~ In k (map fst o).
Proof.
  induction o as [|[k' v] o IH]; simpl.
  - intuition.
  - destruct (String.eqb k' k) eqn:E.
    + apply String.eqb_eq in E. split; [discriminate|]. intuition.
    + apply String.eqb_neq in E. rewrite IH. intuition.
Qed.

Lemma obj_get_set (o : obj V) (k k' : string) (v : V) :
  obj_get (obj_set o k v) k'
  = if String.eqb k k' then Some v else obj_get o k'.
Proof.
  induction o as [|[k0 v0] o IH]; simpl.
  - reflexivity.
  - destruct (String.eqb k0 k) eqn:E; simpl.
    + apply String.eqb_eq in E. subst k0.
      destruct (String.eqb k k'); reflexivity.
    + rewrite IH. destruct (String.eqb k0 k') eqn:E'; auto.
      apply String.eqb_eq in E'. subst k0. now rewrite String.eqb_sym, E.
Qed.

Lemma obj_set_keys (o : obj V) (k : string) (v : V) :
  map fst (obj_set o k v)
  = match obj_get o k with
    | Some _ => map fst o
    | None => map fst o ++ [k]
    end.
Proof.
  induction o as [|[k0 v0] o IH]; simpl.
  - reflexivity.
  - destruct (String.eqb k0 k) eqn:E; simpl; auto.
    rewrite IH. destruct (obj_get o k); reflexivity.
Qed.

Lemma Object_keys_perm (o : obj V) : Permutation (Object_keys o) (map fst o).
Proof.
  unfold Object_keys.
  eapply perm_trans; [apply Permutation_app_tail, Array_sort_perm|].
  induction (map fst o) as [|k ks IH]; simpl; auto.
  destruct (is_array_index k); simpl.
  - now apply perm_skip.
  - eapply perm_trans; [apply Permutation_sym, Permutation_middle|].
    now apply perm_skip.
Qed.
End ObjFacts.

(** ** Grouping by hour *)

Lemma byHour_push_inv o cl t :
  byHour_inv o cl -> byHour_inv (byHour_push o t) (cl ++ [t]).
Proof.
  intros [Hnd Hget]. unfold byHour_push. fold (hourOf t).
  pose proof (Hget (hourOf t)) as Hh.
  split.
  - destruct (obj_get o (hourOf t)) as [l|] eqn:E;
      rewrite obj_set_keys, E; auto.
    apply NoDup_app; auto.
    + constructor; [intros []|constructor].
    + intros k Hk [<-|[]]. apply obj_get_None in E. contradiction.
  - intro k. rewrite filter_app. cbn [filter]. unfold hour_is at 2.
    destruct (obj_get o (hourOf t)) as [l|] eqn:E; rewrite obj_get_set;
      destruct (String.eqb (hourOf t) k) eqn:Ek.
    + apply String.eqb_eq in Ek. subst k.
      destruct (filter (hour_is (hourOf t)) cl) as [|x xs];
        simpl in Hh; [discriminate|].
      injection Hh as ->. reflexivity.
    + rewrite app_nil_r. apply Hget.
    + apply String.eqb_eq in Ek. subst k.
      destruct (filter (hour_is (hourOf t)) cl) as [|x xs];
        simpl in Hh; [reflexivity|discriminate].
    + rewrite app_nil_r. apply Hget.
Qed.

Lemma byHour_fold_inv cl : forall o pre,
  byHour_inv o pre -> byHour_inv (fold_left byHour_push cl o) (pre ++ cl).
Proof.
  induction cl as [|t cl IH]; intros o pre H; simpl.
  - now rewrite app_nil_r.
  - replace (pre ++ t :: cl) with ((pre ++ [t]) ++ cl)
      by (now rewrite <- app_assoc).
    apply IH, byHour_push_inv, H.
Qed.

Lemma byHour_of_inv cl : byHour_inv (byHour_of cl) cl.
Proof.
  apply (byHour_fold_inv cl [] []). split; [constructor|reflexivity].
Qed.

Lemma byHour_list_filter cl hh :
  byHour_list (byHour_of cl) hh = filter (hour_is hh) cl.
Proof.
  unfold byHour_list. rewrite (proj2 (byHour_of_inv cl)).
  destruct (filter (hour_is hh) cl); reflexivity.
Qed.

Lemma byHour_keys cl hh :
  In hh (map fst (byHour_of cl)) <-> filter (hour_is hh) cl <> [].
Proof.
  pose proof (obj_get_None (byHour_of cl) hh) as H.
  rewrite (proj2 (byHour_of_inv cl)) in H.
  destruct (filter (hour_is hh) cl) eqn:E; simpl in H.
  - split; [|congruence]. intro Hin. now apply H in Hin.
  - split; [discriminate|]. intros _.
    destruct (in_dec string_dec hh (map fst (byHour_of cl))); auto.
    apply H in n. discriminate.
Qed.

Lemma byHour_keys_NoDup cl : NoDup (Object_keys (byHour_of cl)).
Proof.
  eapply Permutation_NoDup;
    [apply Permutation_sym, Object_keys_perm | apply byHour_of_inv].
Qed.

(** ** Distribution into buckets *)

Lemma bucket_eqb_eq a b : bucket_eqb a b = true <-> a = b.
Proof. destruct a, b; simpl; split; congruence. Qed.

Lemma bucket_get_push bb b g b' :
  bucket_get (bucket_push bb b g) b'
  = bucket_get bb b' ++ (if bucket_eqb b b' then [g] else []).
Proof. destruct b, b'; simpl; now rewrite ?app_nil_r. Qed.

Lemma bucket_fold_get (mk : string -> HourGroup) keys : forall bb b,
  bucket_get
    (fold_left (fun bb hh => bucket_push bb (bucketOfHour hh) (mk hh)) keys bb)
    b
  = bucket_get bb b
    ++ map mk (filter (fun hh => bucket_eqb (bucketOfHour hh) b) keys).
Proof.
  induction keys as [|k keys IH]; intros bb b; simpl.
  - now rewrite app_nil_r.
  - rewrite IH, bucket_get_push, <- app_assoc. f_equal.
    destruct (bucket_eqb (bucketOfHour k) b); reflexivity.
Qed.

Lemma bucket_get_map {A B} (f : A -> B) bb b :
  bucket_get (bucket_map f bb) b = f (bucket_get bb b).
Proof. destruct b; reflexivity. Qed.

Lemma buildSections_bucket slots b :
  bucket_get (buildSections slots) b
  = Array_sort cmp_hour
      (map (group_of (cleaned slots))
           (filter (fun hh => bucket_eqb (bucketOfHour hh) b)
                   (Object_keys (byHour_of (cleaned slots))))).
Proof.
  unfold buildSections. rewrite bucket_get_map, bucket_fold_get.
  replace (bucket_get {| morning := []; afternoon := []; evening := [] |} b)
    with (@nil HourGroup) by (destruct b; reflexivity).
  rewrite app_nil_l. f_equal. apply map_ext. intro hh. unfold group_of.
  now rewrite byHour_list_filter.
Qed.

Lemma group_in_bucket slots b g :
  In g (bucket_get (buildSections slots) b)
  <-> bucketOfHour (hour g) = b
      /\ list_ g = filter (hour_is (hour g)) (cleaned slots)
      /\ list_ g <> [].
Proof.
  rewrite buildSections_bucket, Array_sort_In, in_map_iff. split.
  - intros (hh & <- & Hin). apply filter_In in Hin. destruct Hin as [Hk Hb].
    apply bucket_eqb_eq in Hb.
    apply (Permutation_in _ (Object_keys_perm _)) in Hk.
    apply byHour_keys in Hk. simpl. auto.
  - intros (Hb & Hl & Hne). exists (hour g). split.
    + destruct g as [h l]. simpl in *. unfold group_of. now rewrite Hl.
    + apply filter_In. split.
      * apply (Permutation_in _ (Permutation_sym (Object_keys_perm _))).
        apply byHour_keys. now rewrite <- Hl.
      * now apply bucket_eqb_eq.
Qed.

Lemma group_hour_two_digits slots b g :
  In g (bucket_get (buildSections slots) b) -> two_digits (hour g).
Proof.
  intro H. apply group_in_bucket in H. destruct H as (_ & Hl & Hne).
  destruct (list_ g) as [|t l] eqn:E; [congruence|].
  assert (Ht : In t (filter (hour_is (hour g)) (cleaned slots)))
    by (rewrite <- Hl; now left).
  apply filter_In in Ht. destruct Ht as [Hc Hh].
  apply String.eqb_eq in Hh. rewrite <- Hh.
  apply cleaned_In in Hc. now apply hourOf_valid.
Qed.

(** ** Placement of a time *)

Lemma group_times slots b g t :
  In g (bucket_get (buildSections slots) b) -> In t (list_ g) ->
  In t (cleaned slots) /\ hourOf t = hour g.
Proof.
  intros Hg Ht. apply group_in_bucket in Hg. destruct Hg as (_ & Hl & _).
  rewrite Hl in Ht. apply filter_In in Ht. destruct Ht as [Hc Hh].
  apply String.eqb_eq in Hh. auto.
Qed.

Lemma assigned_iff slots t b :
  In t slots -> test_hhmm t = true ->
  (assigned (buildSections slots) t b <-> b = bucketOfHour (hourOf t)).
Proof.
  intros Hin Hv. split.
  - intros (g & Hg & Ht).
    destruct (group_times _ _ _ _ Hg Ht) as [_ Hh].
    apply group_in_bucket in Hg. destruct Hg as (Hb & _). congruence.
  - intros ->. exists (group_of (cleaned slots) (hourOf t)).
    assert (Ht : In t (filter (hour_is (hourOf t)) (cleaned slots))).
    { apply filter_In. split.
      - now apply cleaned_In.
      - apply String.eqb_refl. }
    split; [|exact Ht].
    apply group_in_bucket. simpl. repeat split; auto.
    intro E. rewrite E in Ht. destruct Ht.
Qed.

Lemma bucketOfHour_table (hh : string) (h : Z) :
  Number hh = Num h ->
  (5 <= h <= 11 -> bucketOfHour hh = Morning)
  /\ (12 <= h <= 17 -> bucketOfHour hh = Afternoon)
  /\ (h < 5 \/ 17 < h -> bucketOfHour hh = Evening).
Proof.
  intro E. unfold bucketOfHour. rewrite E. simpl.
  repeat split; intro H;
    destruct (5 <=? h) eqn:E1, (h <=? 11) eqn:E2,
             (12 <=? h) eqn:E3, (h <=? 17) eqn:E4; simpl; try reflexivity;
    lia.
Qed.

(** The hours listed in the specification. *)
Example bucketOfHour_examples :
  bucketOfHour "05" = Morning /\ bucketOfHour "11" = Morning
  /\ bucketOfHour "12" = Afternoon /\ bucketOfHour "17" = Afternoon
  /\ bucketOfHour "18" = Evening /\ bucketOfHour "00" = Evening.
Proof. repeat split. Qed.

Lemma valid_time_head (d1 d2 : ascii) (rest : string) :
  test_hhmm (String d1 (String d2 rest)) = true ->
  is_digit d1 = true /\ is_digit d2 = true
  /\ hourOf (String d1 (String d2 rest)) = String d1 (String d2 EmptyString).
Proof.
  destruct rest as [|c [|d [|e [|? ?]]]]; cbn [test_hhmm]; try discriminate.
  intro H. do 4 (apply andb_prop in H; destruct H as [H ?]).
  unfold hourOf. cbn [split_first].
  rewrite (is_digit_not_colon d1), (is_digit_not_colon d2) by assumption.
  match goal with E : Ascii.eqb c ":" = true |- _ => rewrite E end.
  auto.
Qed.

(** C1. Take a time of the fetched list that passes the [HH:MM] test, and
    let [h] be the number its two hour digits [d1 d2] write in base ten
    (a digit being its character code less 48).  The script reads that same
    number from the hour key, and the only bucket whose groups list the
    time is morning when [h] is 5..11, afternoon when it is 12..17, and
    evening when it is 18..23 or 0..4. *)
Theorem C1_bucket_by_hour (slots : list string) (d1 d2 : ascii)
    (rest : string) :
  let t := String d1 (String d2 rest) in
  let h := 10 * (Z.of_N (N_of_ascii d1) - 48) + (Z.of_N (N_of_ascii d2) - 48) in
  In t slots -> test_hhmm t = true ->
  Number (hourOf t) = Num h /\ 0 <= h <= 99
  /\ (5 <= h <= 11 ->
      forall b, assigned (buildSections slots) t b <-> b = Morning)
  /\ (12 <= h <= 17 ->
      forall b, assigned (buildSections slots) t b <-> b = Afternoon)
  /\ (18 <= h <= 23 \/ 0 <= h <= 4 ->
      forall b, assigned (buildSections slots) t b <-> b = Evening).
Proof.
  cbv zeta. intros Hin Hv.
  destruct (valid_time_head d1 d2 rest Hv) as (H1 & H2 & Hh).
  assert (HN : Number (hourOf (String d1 (String d2 rest)))
               = Num (10 * (Z.of_N (N_of_ascii d1) - 48)
                      + (Z.of_N (N_of_ascii d2) - 48))).
  { rewrite Hh. apply (Number_two_digits d1 d2 H1 H2). }
  pose proof (is_digit_range _ H1) as R1.
  pose proof (is_digit_range _ H2) as R2.
  unfold digit_value in R1, R2.
  split; [exact HN|]. split; [lia|].
  destruct (bucketOfHour_table _ _ HN) as (Hm & Ha & He).
  split; [|split]; intros Hrange b;
    rewrite (assigned_iff slots _ b Hin Hv).
  - now rewrite Hm.
  - now rewrite Ha.
  - rewrite He by lia. reflexivity.
Qed.

Lemma C1_bucket_by_hour_witness :
  (forall b, assigned (buildSections ["18:00"; "09:30"; "14:15"; "03:00"])
                      "09:30" b <-> b = Morning)
  /\ (forall b, assigned (buildSections ["18:00"; "09:30"; "14:15"; "03:00"])
                         "14:15" b <-> b = Afternoon)
  /\ (forall b, assigned (buildSections ["18:00"; "09:30"; "14:15"; "03:00"])
                         "18:00" b <-> b = Evening)
  /\ (forall b, assigned (buildSections ["18:00"; "09:30"; "14:15"; "03:00"])
                         "03:00" b <-> b = Evening).
Proof.
  split; [|split; [|split]].
  - destruct (C1_bucket_by_hour ["18:00"; "09:30"; "14:15"; "03:00"]
                "0" "9" ":30") as (_ & _ & H & _ & _);
      [simpl; auto | reflexivity |].
    apply H. simpl. lia.
  - destruct (C1_bucket_by_hour ["18:00"; "09:30"; "14:15"; "03:00"]
                "1" "4" ":15") as (_ & _ & _ & H & _);
      [simpl; auto | reflexivity |].
    apply H. simpl. lia.
  - destruct (C1_bucket_by_hour ["18:00"; "09:30"; "14:15"; "03:00"]
                "1" "8" ":00") as (_ & _ & _ & _ & H);
      [simpl; auto | reflexivity |].
    apply H. simpl. lia.
  - destruct (C1_bucket_by_hour ["18:00"; "09:30"; "14:15"; "03:00"]
                "0" "3" ":00") as (_ & _ & _ & _ & H);
      [simpl; auto | reflexivity |].
    apply H. simpl. lia.
Defined.

(** ** Section building *)

Lemma group_list_sorted slots b g :
  In g (bucket_get (buildSections slots) b) -> StronglySorted str_lt (list_ g).
Proof.
  intro Hg. apply group_in_bucket in Hg. destruct Hg as (_ & -> & _).
  apply StronglySorted_filter, cleaned_sorted.
Qed.

Lemma group_list_NoDup slots b g :
  In g (bucket_get (buildSections slots) b) -> NoDup (list_ g).
Proof.
  intro Hg. apply group_in_bucket in Hg. destruct Hg as (_ & -> & _).
  apply NoDup_filter, cleaned_NoDup.
Qed.

(** C2. Section building works on the fetched list with duplicates removed,
    entries failing the [HH:MM] test discarded and the rest sorted in
    code-unit (lexicographic) order: the cleaned list is that pipeline, it
    has no duplicate, holds exactly the entries of the input that pass the
    test, is strictly ascending, and every group lists entries of it, each
    once.  For the input 09:00, 09:00, 09:30 the group of hour 09 has
    exactly the two entries 09:00 and 09:30. *)
Theorem C2_dedup_filter_sort :
  (forall slots : list string,
      cleaned slots
      = Array_sort localeCompare (filter test_hhmm (Set_from slots))
      /\ NoDup (cleaned slots)
      /\ (forall t, In t (cleaned slots) <-> In t slots /\ test_hhmm t = true)
      /\ StronglySorted str_lt (cleaned slots)
      /\ (forall b g, In g (bucket_get (buildSections slots) b) ->
                      NoDup (list_ g)
                      /\ forall t, In t (list_ g) -> In t (cleaned slots))
      /\ (forall t, In t (cleaned slots) ->
                    exists b, assigned (buildSections slots) t b))
  /\ buildSections ["09:00"; "09:00"; "09:30"]
     = {| morning := [ {| hour := "09"; list_ := ["09:00"; "09:30"] |} ];
          afternoon := [];
          evening := [] |}.
Proof.
  split; [|reflexivity].
  intro slots. split; [apply cleaned_pipeline|].
  split; [apply cleaned_NoDup|].
  split; [apply cleaned_In|].
  split; [apply cleaned_sorted|].
  split.
  - intros b g Hg. split; [eapply group_list_NoDup, Hg|].
    intros t Ht. eapply group_times; eauto.
  - intros t Ht. apply cleaned_In in Ht. destruct Ht as [Hin Hv].
    exists (bucketOfHour (hourOf t)). now apply assigned_iff.
Qed.

Lemma C2_dedup_filter_sort_witness :
  cleaned ["09:30"; ""; "09:00"; "9h"; "09:00"] = ["09:00"; "09:30"]
  /\ exists b, assigned (buildSections ["09:30"; ""; "09:00"; "9h"; "09:00"])
                        "09:30" b.
Proof.
  destruct (proj1 C2_dedup_filter_sort ["09:30"; ""; "09:00"; "9h"; "09:00"])
    as (H1 & _ & _ & _ & _ & H2).
  split.
  - rewrite H1. reflexivity.
  - apply H2. rewrite H1. simpl. auto.
Defined.

(** ** Order of the groups *)

Lemma hour_lt_trans g1 g2 g3 : hour_lt g1 g2 -> hour_lt g2 g3 -> hour_lt g1 g3.
Proof.
  unfold hour_lt.
  destruct (Number (hour g1)), (Number (hour g2)), (Number (hour g3));
    try easy. lia.
Qed.

Lemma NoDup_map_on {A B} (f : A -> B) (l : list A) :
  (forall x y, In x l -> In y l -> f x = f y -> x = y) ->
  NoDup l -> NoDup (map f l).
Proof.
  intros Hinj Hnd. induction Hnd as [|x l Hx Hnd IH]; simpl.
  - constructor.
  - constructor.
    + rewrite in_map_iff. intros (y & E & Hy).
      assert (y = x) by (apply Hinj; simpl; auto). congruence.
    + apply IH. intros; apply Hinj; simpl; auto.
Qed.

Lemma bucket_sorted slots b :
  StronglySorted hour_lt (bucket_get (buildSections slots) b).
Proof.
  pose proof (group_hour_two_digits slots b) as Htwo.
  rewrite buildSections_bucket in *.
  apply Array_sort_sorted.
  - exact hour_lt_trans.
  - apply NoDup_map_on.
    + intros x y _ _ E. now injection E.
    + apply NoDup_filter, byHour_keys_NoDup.
  - intros x y Hx Hy Hne.
    assert (Hhx : two_digits (hour x)) by (apply Htwo, Array_sort_In, Hx).
    assert (Hhy : two_digits (hour y)) by (apply Htwo, Array_sort_In, Hy).
    assert (Hh : hour x <> hour y).
    { apply in_map_iff in Hx, Hy.
      destruct Hx as (hx & <- & _), Hy as (hy & <- & _).
      simpl. congruence. }
    pose proof (Number_hour_inj _ _ Hhx Hhy) as Hinj.
    destruct (Number_hour _ Hhx) as (a & Ea & _).
    destruct (Number_hour _ Hhy) as (c & Ec & _).
    unfold decides, cmp_hour, hour_lt. rewrite Ea, Ec in *. simpl.
    assert (a <> c) by (intros ->; now apply Hh, Hinj).
    destruct (0 <? a - c) eqn:E; lia.
Qed.

(** C3. In the structure [buildSections] returns, the times of a group all
    carry the hour of the group and are strictly ascending, and the groups
    of each bucket are strictly ascending by hour.  For 10:30, 09:00, 09:45
    the group of hour 09 lists 09:00 before 09:45 and comes before the group
    of hour 10. *)
Theorem C3_groups_ordered :
  (forall (slots : list string) (b : bucket),
      StronglySorted hour_lt (bucket_get (buildSections slots) b)
      /\ forall g, In g (bucket_get (buildSections slots) b) ->
                   (forall t, In t (list_ g) -> hourOf t = hour g)
                   /\ StronglySorted str_lt (list_ g))
  /\ buildSections ["10:30"; "09:00"; "09:45"]
     = {| morning := [ {| hour := "09"; list_ := ["09:00"; "09:45"] |};
                       {| hour := "10"; list_ := ["10:30"] |} ];
          afternoon := [];
          evening := [] |}.
Proof.
  split; [|reflexivity].
  intros slots b. split; [apply bucket_sorted|].
  intros g Hg. split.
  - intros t Ht. eapply group_times; eauto.
  - eapply group_list_sorted, Hg.
Qed.

Lemma C3_groups_ordered_witness :
  StronglySorted hour_lt (morning (buildSections ["10:30"; "09:00"; "09:45"]))
  /\ hourOf "09:45" = "09".
Proof.
  destruct (proj1 C3_groups_ordered ["10:30"; "09:00"; "09:45"] Morning)
    as [H1 H2].
  split; [exact H1|].
  apply (H2 {| hour := "09"; list_ := ["09:00"; "09:45"] |}).
  - left. reflexivity.
  - right. left. reflexivity.
Defined.

(** The keys of [byHour] do not come out in ascending order: 10, 12 and 23
    are array indices and come first, 00 and 09 follow in creation order.
    The sort by hour at the end of [buildSections] is what orders the
    groups. *)
Example byHour_keys_order :
  Object_keys
    (byHour_of (cleaned ["10:30"; "09:00"; "23:10"; "00:15"; "12:00"]))
  = ["10"; "12"; "23"; "00"; "09"].
Proof. reflexivity. Qed.

(** ** Day-slot fetch *)

Lemma count_of_fold secs : forall acc,
  fold_left (fun acc s => acc + Z.of_nat (List.length (list_ s))) secs acc
  = acc + count_of secs.
Proof.
  unfold count_of.
  induction secs as [|g secs IH]; intro acc; simpl.
  - lia.
  - rewrite IH, (IH (Z.of_nat _)). lia.
Qed.

Lemma count_of_cons g secs :
  count_of (g :: secs) = Z.of_nat (List.length (list_ g)) + count_of secs.
Proof. unfold count_of at 1. simpl. apply count_of_fold. Qed.

Lemma count_of_nonneg secs : 0 <= count_of secs.
Proof.
  induction secs as [|g secs IH]; [reflexivity|].
  rewrite count_of_cons. lia.
Qed.

Lemma count_of_pos secs g t :
  In g secs -> In t (list_ g) -> 0 < count_of secs.
Proof.
  induction secs as [|g' secs IH]; intros Hg Ht; [destruct Hg|].
  rewrite count_of_cons. pose proof (count_of_nonneg secs).
  destruct Hg as [->|Hg].
  - destruct (list_ g); [destruct Ht|]. simpl List.length. lia.
  - specialize (IH Hg Ht). lia.
Qed.

Lemma truthy_iff n : truthy n = true <-> n <> 0.
Proof. unfold truthy. destruct (Z.eqb_spec n 0); simpl; split; congruence. Qed.

Lemma initialBucket_of_spec (guess : bucket) (counts : Buckets Z) :
  (exists b, bucket_get counts b <> 0) ->
  let b := initialBucket_of guess counts in
  bucket_get counts b <> 0
  /\ (bucket_get counts guess <> 0 -> b = guess)
  /\ (bucket_get counts guess = 0 -> first_nonempty counts = Some b).
Proof.
  intros [b0 Hb0]. unfold initialBucket_of, first_nonempty. simpl.
  destruct (truthy (bucket_get counts guess)) eqn:Eg.
  - apply truthy_iff in Eg. repeat split; auto. contradiction.
  - assert (Hg : bucket_get counts guess = 0).
    { destruct (Z.eq_dec (bucket_get counts guess) 0); auto.
      apply truthy_iff in n. congruence. }
    destruct (truthy (morning counts)) eqn:Em;
      [apply truthy_iff in Em; repeat split; auto; contradiction|].
    destruct (truthy (afternoon counts)) eqn:Ea;
      [apply truthy_iff in Ea; repeat split; auto; contradiction|].
    destruct (truthy (evening counts)) eqn:Ee;
      [apply truthy_iff in Ee; repeat split; auto; contradiction|].
    exfalso. destruct b0; simpl in Hb0; apply truthy_iff in Hb0; congruence.
Qed.

Lemma renderSections_active b p :
  activeBucket (slotsState (renderSections b p)) = b.
Proof.
  unfold renderSections. cbn [sectionsByBucket].
  destruct (bucket_get (sectionsByBucket (slotsState p)) b); reflexivity.
Qed.

Lemma renderSections_head b p tabs rest :
  slotsGrid p = tabs :: rest ->
  hd_error (slotsGrid (renderSections b p)) = Some tabs.
Proof.
  intro E. unfold renderSections. rewrite E. cbn [sectionsByBucket].
  destruct (bucket_get (sectionsByBucket (slotsState p)) b); reflexivity.
Qed.

Lemma fetchSlotsFor_render_active slots nowHours p :
  activeBucket (slotsState (fetchSlotsFor_render slots nowHours p))
  = initialBucket_of (guess_of nowHours)
      (bucket_map count_of (buildSections slots)).
Proof. unfold fetchSlotsFor_render. cbn [slotsState]. apply renderSections_active. Qed.

Lemma fetchSlotsFor_render_tabs slots nowHours p :
  slotsGrid p = [] ->
  hd_error (slotsGrid (fetchSlotsFor_render slots nowHours p))
  = Some (renderTabs
            (initialBucket_of (guess_of nowHours)
               (bucket_map count_of (buildSections slots)))
            (bucket_map count_of (buildSections slots))).
Proof.
  intro E. unfold fetchSlotsFor_render. cbn [slotsGrid].
  eapply renderSections_head. cbn [slotsGrid]. rewrite E. reflexivity.
Qed.

Lemma fetchSlotsFor_success SHOP BARBER dateStr (resp : Response SlotsPayload)
    slots nowHours p :
  ok resp = true -> json resp = JsonData (Some slots) -> slots <> [] ->
  fetchSlotsFor SHOP BARBER dateStr (FetchOk resp) nowHours p
  = fetchSlotsFor_render slots nowHours (fetchSlotsFor_reset dateStr p).
Proof.
  intros Hok Hj Hne. unfold fetchSlotsFor, fetchSlotsFor_settle.
  rewrite Hok, Hj. cbn [negb]. destruct slots; [congruence|reflexivity].
Qed.

(** C4. After a successful day-slot fetch with at least one time that passes
    the [HH:MM] test, the selected bucket (the active bucket of the state,
    which is also the active tab) has entries; it is the bucket guessed from
    the wall-clock hour (morning before 12, afternoon before 18, evening
    otherwise) when that one has entries, and otherwise the first bucket
    with entries in the order morning, afternoon, evening. *)
Theorem C4_initial_bucket SHOP BARBER dateStr (resp : Response SlotsPayload)
    slots nowHours p :
  ok resp = true -> json resp = JsonData (Some slots) ->
  (exists t, In t slots /\ test_hhmm t = true) ->
  let p' := fetchSlotsFor SHOP BARBER dateStr (FetchOk resp) nowHours p in
  let counts := bucket_map count_of (buildSections slots) in
  let guess := if nowHours <? 12 then Morning
               else if nowHours <? 18 then Afternoon else Evening in
  let b := activeBucket (slotsState p') in
  hd_error (slotsGrid p') = Some (renderTabs b counts)
  /\ bucket_get counts b <> 0
  /\ (bucket_get counts guess <> 0 -> b = guess)
  /\ (bucket_get counts guess = 0 -> first_nonempty counts = Some b).
Proof.
  intros Hok Hj (t & Hin & Hv). cbv zeta.
  assert (Hne : slots <> []) by (intros ->; destruct Hin).
  rewrite (fetchSlotsFor_success _ _ _ _ _ _ _ Hok Hj Hne).
  rewrite fetchSlotsFor_render_active.
  rewrite fetchSlotsFor_render_tabs by reflexivity.
  split; [reflexivity|].
  apply initialBucket_of_spec.
  exists (bucketOfHour (hourOf t)). rewrite bucket_get_map.
  destruct (proj2 (assigned_iff slots t _ Hin Hv) eq_refl) as (g & Hg & Ht).
  pose proof (count_of_pos _ _ _ Hg Ht). lia.
Qed.

Lemma C4_initial_bucket_witness :
  let p' := fetchSlotsFor "shop" None "2025-03-10"
              (FetchOk (answer_slots ["09:00"; "09:30"; "19:00"])) 14 page0 in
  activeBucket (slotsState p') = Morning
  /\ first_nonempty
       (bucket_map count_of (buildSections ["09:00"; "09:30"; "19:00"]))
     = Some (activeBucket (slotsState p')).
Proof.
  pose proof (C4_initial_bucket "shop" None "2025-03-10"
                (answer_slots ["09:00"; "09:30"; "19:00"])
                ["09:00"; "09:30"; "19:00"] 14 page0 eq_refl eq_refl) as H.
  cbv zeta in H.
  destruct H as (_ & _ & _ & H).
  - exists "09:00". split; [simpl; auto | reflexivity].
  - split; [reflexivity|]. apply H. reflexivity.
Defined.

(** The two examples of the specification: at 14h, afternoon is selected
    when it has entries, morning when only morning has. *)
Example initial_bucket_examples :
  activeBucket (slotsState
    (fetchSlotsFor "shop" None "2025-03-10"
       (FetchOk (answer_slots ["09:00"; "14:30"])) 14 page0)) = Afternoon
  /\ activeBucket (slotsState
       (fetchSlotsFor "shop" None "2025-03-10"
          (FetchOk (answer_slots ["09:00"; "10:30"])) 14 page0)) = Morning.
Proof. split; reflexivity. Qed.

(** An empty list gives the "no availability" panel, not the error panel. *)
Example empty_slots_panel :
  let p' := fetchSlotsFor "shop" None "2025-03-10"
              (FetchOk (answer_slots [])) 14 page0 in
  slotsEmpty_hidden p' = false /\ slotsErr_hidden p' = true
  /\ slotsGrid p' = [].
Proof. repeat split. Qed.

Lemma slice0_length (n : nat) (s : string) :
  (String.length (slice0 n s) <= n)%nat.
Proof.
  unfold slice0. revert s. induction n as [|n IH]; intros [|c s]; simpl; try lia.
  specialize (IH s). lia.
Qed.

Lemma slice0_prefix (n : nat) (s : string) : prefix (slice0 n s) s = true.
Proof.
  unfold slice0. revert s.
  induction n as [|n IH]; intros [|c s]; simpl; try reflexivity.
  destruct (ascii_dec c c); [apply IH|congruence].
Qed.

(** C5. When the day-slot request is answered with a status outside 200-299,
    the error panel is shown; the detail shown is the status line followed
    by [txt.slice(0, 140)] of the body: a prefix of the raw body of at most
    140 characters.  If the body cannot be read, the detail is the text of
    that failure. *)
Theorem C5_http_error_detail SHOP BARBER dateStr (resp : Response SlotsPayload)
    nowHours p :
  ok_is_2xx resp -> ~ (200 <= status resp <= 299) ->
  let p' := fetchSlotsFor SHOP BARBER dateStr (FetchOk resp) nowHours p in
  slotsErr_hidden p' = false
  /\ slotsEmpty_hidden p' = true
  /\ slotsGrid p' = []
  /\ match text resp with
     | TextOk txt =>
         errDetail p'
         = "HTTP " ^^ String_of (status resp) ^^ " em " ^^ SLOTS_URL SHOP BARBER
           ^^ " – " ^^ slice0 140 txt
         /\ (String.length (slice0 140 txt) <= 140)%nat
         /\ prefix (slice0 140 txt) txt = true
     | TextFail e =>
         errDetail p'
         = if Boolean (err_message e) then err_message e else Error_toString e
     end.
Proof.
  intros Hwf Hst. cbv zeta.
  assert (Hok : ok resp = false).
  { rewrite Hwf. destruct (200 <=? status resp) eqn:E1; [|reflexivity].
    destruct (status resp <=? 299) eqn:E2; [|reflexivity]. lia. }
  unfold fetchSlotsFor, fetchSlotsFor_settle. rewrite Hok. cbn [negb].
  destruct (text resp) as [txt|e].
  - repeat split; try reflexivity.
    + apply slice0_length.
    + apply slice0_prefix.
  - repeat split; reflexivity.
Qed.

Lemma C5_http_error_detail_witness :
  let p' := fetchSlotsFor "shop" (Some "joe") "2025-03-10"
              (FetchOk (answer_500 "Server Error (500)")) 9 page0 in
  slotsErr_hidden p' = false
  /\ errDetail p' = "HTTP 500 em /pub/shop/joe/slots/ – Server Error (500)".
Proof.
  assert (Hwf : ok_is_2xx (answer_500 "Server Error (500)")) by reflexivity.
  assert (Hst : ~ (200 <= status (answer_500 "Server Error (500)") <= 299))
    by (simpl; lia).
  pose proof (C5_http_error_detail "shop" (Some "joe") "2025-03-10"
                (answer_500 "Server Error (500)") 9 page0 Hwf Hst) as H.
  cbv zeta in H. destruct H as (H1 & _ & _ & H2 & _).
  split; [exact H1 | exact H2].
Defined.

Lemma buildSections_nothing_valid slots :
  (forall t, In t slots -> test_hhmm t = false) ->
  buildSections slots = {| morning := []; afternoon := []; evening := [] |}.
Proof.
  intro H. unfold buildSections. rewrite (cleaned_nil slots H). reflexivity.
Qed.

(** C10. The emptiness test is made on the array as fetched.  After a
    successful fetch of a non-empty array in which no entry passes the
    [HH:MM] test, the "no availability" panel and the error panel stay
    hidden; the grid shows the three tabs, every bucket counting zero
    entries (so no tab carries a count), with the evening tab active, over
    the notice of an empty period.  The wrapper does not get its [ready]
    class in this case. *)
Theorem C10_unfiltered_empty_check SHOP BARBER dateStr
    (resp : Response SlotsPayload) slots nowHours p :
  ok resp = true -> json resp = JsonData (Some slots) -> slots <> [] ->
  (forall t, In t slots -> test_hhmm t = false) ->
  let p' := fetchSlotsFor SHOP BARBER dateStr (FetchOk resp) nowHours p in
  slotsEmpty_hidden p' = true
  /\ slotsErr_hidden p' = true
  /\ slotsSkeleton_hidden p' = true
  /\ bucket_map count_of (sectionsByBucket (slotsState p'))
     = {| morning := 0; afternoon := 0; evening := 0 |}
  /\ activeBucket (slotsState p') = Evening
  /\ slotsGrid p'
     = [ SlotTabs
           [ {| tab_key := Morning; tab_text := "Manhã"; tab_active := false |};
             {| tab_key := Afternoon; tab_text := "Tarde"; tab_active := false |};
             {| tab_key := Evening; tab_text := "Noite"; tab_active := true |} ];
         Paragraph "Sem horários nesse período." ]
  /\ slotsWrap_ready p' = false.
Proof.
  intros Hok Hj Hne Hbad. cbv zeta.
  rewrite (fetchSlotsFor_success _ _ _ _ _ _ _ Hok Hj Hne).
  unfold fetchSlotsFor_render.
  rewrite (buildSections_nothing_valid slots Hbad).
  destruct (nowHours <? 12) eqn:E1; [|destruct (nowHours <? 18) eqn:E2];
    unfold guess_of; rewrite E1, ?E2; repeat split; reflexivity.
Qed.

Lemma C10_unfiltered_empty_check_witness :
  let p' := fetchSlotsFor "shop" None "2025-03-10"
              (FetchOk (answer_slots ["9:00"; "25h"; ""])) 9 page0 in
  slotsEmpty_hidden p' = true
  /\ slotsGrid p'
     = [ SlotTabs
           [ {| tab_key := Morning; tab_text := "Manhã"; tab_active := false |};
             {| tab_key := Afternoon; tab_text := "Tarde"; tab_active := false |};
             {| tab_key := Evening; tab_text := "Noite"; tab_active := true |} ];
         Paragraph "Sem horários nesse período." ].
Proof.
  assert (Hbad : forall t, In t ["9:00"; "25h"; ""] -> test_hhmm t = false).
  { intros t [<-|[<-|[<-|[]]]]; reflexivity. }
  pose proof (C10_unfiltered_empty_check "shop" None "2025-03-10"
                (answer_slots ["9:00"; "25h"; ""]) ["9:00"; "25h"; ""] 9 page0
                eq_refl eq_refl ltac:(discriminate) Hbad) as H.
  cbv zeta in H. destruct H as (H1 & _ & _ & _ & _ & H2 & _).
  split; [exact H1 | exact H2].
Defined.

(** ** Submission guard *)

Lemma trim_start_blank (s : string) :
  trim_start s = "" <-> (forall c, In c (list_ascii_of_string s) -> is_blank c = true).
Proof.
  induction s as [|c s IH]; simpl.
  - split; [intros _ ? []|reflexivity].
  - destruct (is_blank c) eqn:E.
    + rewrite IH. split.
      * intros H x [<-|Hx]; auto.
      * intros H x Hx. apply H. now right.
    + split; [discriminate|]. intro H.
      rewrite (H c (or_introl eq_refl)) in E. discriminate.
Qed.

Lemma trim_end_nil_iff (s : string) :
  trim_end s = "" <-> (forall c, In c (list_ascii_of_string s) -> is_blank c = true).
Proof.
  induction s as [|c s IH]; simpl.
  - split; [intros _ ? []|reflexivity].
  - destruct (trim_end s) eqn:Et.
    + destruct (is_blank c) eqn:E.
      * split; [|reflexivity]. intros _ x [<-|Hx]; auto.
        now apply (proj1 IH).
      * split; [discriminate|]. intro H.
        rewrite (H c (or_introl eq_refl)) in E. discriminate.
    + split; [discriminate|]. intro H.
      assert (String a s0 = "") by (apply IH; intros; apply H; now right).
      discriminate.
Qed.

(** A value trims to the empty string exactly when it holds blanks only. *)
Lemma trim_empty_iff (s : string) :
  trim s = "" <-> (forall c, In c (list_ascii_of_string s) -> is_blank c = true).
Proof.
  unfold trim. split.
  - intro H. destruct (trim_start s) eqn:E.
    + now apply trim_start_blank.
    + exfalso. revert E H. clear. 
      induction s as [|c s IH]; simpl; [discriminate|].
      destruct (is_blank c) eqn:Ec; [exact IH|].
      intros E H. injection E as <- <-.
      simpl in H. destruct (trim_end s); [rewrite Ec in H|]; discriminate.
  - intro H. apply trim_start_blank in H. now rewrite H.
Qed.

Lemma Boolean_false_iff (s : string) : Boolean s = false <-> s = "".
Proof.
  unfold Boolean. destruct (String.eqb_spec s ""); simpl; split; congruence.
Qed.

Lemma submit_rejects_iff (w : Wizard) :
  negb match telefone w with Some v => Boolean (trim v) | None => false end
  || negb match servicoSel w with Some v => Boolean v | None => false end
  = true
  <-> contact_empty w \/ no_service w.
Proof.
  unfold contact_empty, no_service.
  rewrite orb_true_iff, !negb_true_iff.
  destruct (telefone w) as [tel|], (servicoSel w) as [srv|];
    rewrite ?Boolean_false_iff; intuition.
Qed.

(** C6. A click on the submit button with an empty trimmed contact or no
    service is cancelled: the default action is prevented, so the form is
    not posted, step 1 is shown, the validation message is alerted and the
    confirmation flag is left as it was.  With both present the handler
    only sets the flag to 1 and the form post goes ahead. *)
Theorem C6_submit_guard (w : Wizard) :
  let r := submitBtn_click w in
  (contact_empty w \/ no_service w ->
     snd r = true /\ form_posted r = false
     /\ visibleStep (fst r) = 1
     /\ alerts (fst r) = alerts w ++ ["Preencha WhatsApp e Serviço."]
     /\ submitFlag (fst r) = submitFlag w)
  /\ (~ contact_empty w /\ ~ no_service w ->
        snd r = false /\ form_posted r = true
        /\ submitFlag (fst r) = "1"
        /\ visibleStep (fst r) = visibleStep w
        /\ alerts (fst r) = alerts w).
Proof.
  cbv zeta. pose proof (submit_rejects_iff w) as Hc.
  unfold submitBtn_click, form_posted.
  destruct (negb match telefone w with
                 | Some v => Boolean (trim v) | None => false end
            || negb match servicoSel w with
                    | Some v => Boolean v | None => false end).
  - split; [intros _; repeat split; reflexivity|].
    intros [H1 H2]. destruct (proj1 Hc eq_refl); contradiction.
  - split; [|intros _; repeat split; reflexivity].
    intro H. apply Hc in H. discriminate.
Qed.

Lemma C6_submit_guard_witness :
  (form_posted (submitBtn_click wizard_no_service) = false
   /\ visibleStep (fst (submitBtn_click wizard_no_service)) = 1)
  /\ (form_posted (submitBtn_click wizard_filled) = true
      /\ submitFlag (fst (submitBtn_click wizard_filled)) = "1").
Proof.
  split.
  - destruct (proj1 (C6_submit_guard wizard_no_service))
      as (_ & H1 & H2 & _).
    + right. reflexivity.
    + split; assumption.
  - destruct (proj2 (C6_submit_guard wizard_filled)) as (_ & H1 & H2 & _).
    + split; intro H; discriminate H.
    + split; assumption.
Defined.

(** ** Month precheck *)

(** C9. When the month request fails, or its answer cannot be read as the
    expected JSON (the body does not parse, or [days] is not an array), the
    precheck appends one warning to the console and returns the calendar
    as it was: no day button changes its disabled state. *)
Theorem C9_precheck_fails_open (servico : string)
    (res : FetchResult DaysField) (calendarGrid : list DayBtn)
    (log : list LogEntry) (e : JsError) :
  Boolean servico = true ->
  (res = FetchFail e
   \/ (exists resp, res = FetchOk resp /\ json resp = JsonThrows e)
   \/ (exists resp, res = FetchOk resp
                    /\ json resp = JsonData (DaysNotArray e))) ->
  precheckMonthAvailability servico res calendarGrid log
  = (calendarGrid, log ++ [Warn "[days] erro:" e]).
Proof.
  intros Hs H. unfold precheckMonthAvailability. rewrite Hs. cbn [negb].
  destruct H as [->|[(resp & -> & Hj)|(resp & -> & Hj)]];
    [reflexivity | rewrite Hj; reflexivity | rewrite Hj; reflexivity].
Qed.

Lemma C9_precheck_fails_open_witness :
  precheckMonthAvailability "3" (FetchFail network_down) march_grid []
  = (march_grid, [Warn "[days] erro:" network_down]).
Proof.
  apply (C9_precheck_fails_open "3" (FetchFail network_down) march_grid []
           network_down).
  - reflexivity.
  - left. reflexivity.
Defined.

(** For contrast: an answer that parses, whatever its status, is applied. *)
Example precheck_applies_answer :
  precheckMonthAvailability "3"
    (FetchOk {| ok := true; status := 200; text := TextOk "";
                json := JsonData (DaysArray [Num 3]) |})
    march_grid []
  = ([ {| day := 1; day_disabled := true |};
       {| day := 2; day_disabled := true |};
       {| day := 3; day_disabled := false |} ], []).
Proof. reflexivity. Qed.

(** ** Staff actions *)

Ltac run_click :=
  unfold click, handler, openConfirm, openDeny, submitFinalize, submitNoShow,
    try_catch_finally, postForm, bind, ret, throw, emit, data, set_disabled,
    set_textContent, or_empty;
  cbn [btn trace dataset disabled textContent fst snd negb].

(** Every run leaves the button enabled and labelled with the idle label of
    the action. *)
Lemma click_button (a : Action) (env : Env) (b : Button) :
  disabled (btn (click a env b)) = false
  /\ textContent (btn (click a env b)) = idle_label a
  /\ dataset (btn (click a env b)) = dataset b.
Proof.
  destruct a; run_click;
    try destruct (confirm_answer env);
    match goal with
    | |- context [obj_get (dataset b) ?k] =>
        destruct (obj_get (dataset b) k) as [[|c u]|]
    end;
    cbn; try (repeat split; reflexivity);
    (destruct (post_result env) as [e|resp];
     [| destruct (ok resp); [| destruct (text resp)]]);
    cbn; repeat split; reflexivity.
Qed.

Ltac split_url b :=
  match goal with
  | |- context [obj_get (dataset b) ?k] =>
      destruct (obj_get (dataset b) k) as [[|?c ?u]|]
  end.

Ltac split_answer env :=
  let e := fresh "e" in
  let resp := fresh "resp" in
  destruct (post_result env) as [e|resp] eqn:?Hnet;
  [| destruct (ok resp) eqn:?Hok; [| destruct (text resp) eqn:?Htext]].

(** Deny, finalize and no-show open their dialog before anything else is
    seen from outside. *)
Lemma click_dialog_first (a : Action) (env : Env) (b : Button) :
  a <> Confirm ->
  exists d rest, trace (click a env b) = d :: rest /\ is_dialog d = true.
Proof.
  intro Ha. destruct a; [congruence| | |]; run_click;
    try destruct (confirm_answer env);
    split_url b; cbn; try (eexists _, _; split; reflexivity);
    split_answer env; cbn; eexists _, _; split; reflexivity.
Qed.

Lemma click_cancelled_confirm (a : Action) (env : Env) (b : Button) :
  a = Finalize \/ a = NoShow -> confirm_answer env = false ->
  exists msg, trace (click a env b) = [AskedConfirm msg].
Proof.
  intros [->| ->] Hc; run_click; rewrite Hc; cbn; eexists; reflexivity.
Qed.

(** C7 as worded does not hold for the deny action.  Its dialog is a prompt
    for an optional reason, and [prompt(...) || ''] reads a dismissed prompt
    as the empty reason: the POST is sent all the same. *)
Lemma C7_deny_posts_after_cancel :
  dialog_cancelled Deny env_dismissed_ok
  /\ trace (click Deny env_dismissed_ok deny_button)
     = [ Prompted "Motivo da negativa (opcional):" "";
         Posted "/solicitacoes/7/negar/" [("motivo", "")];
         Reloaded ]
  /\ posts (click Deny env_dismissed_ok deny_button) <> [].
Proof. repeat split. discriminate. Qed.

(** C7 (as the code has it). Each of deny, finalize and no-show opens its
    blocking dialog before any POST: in every run a request is preceded by
    the dialog.  For finalize and no-show a dismissed dialog ends the run
    with no request at all. *)
Theorem C7_dialog_before_post (a : Action) (env : Env) (b : Button) :
  a <> Confirm ->
  (forall pre url form post,
      trace (click a env b) = pre ++ Posted url form :: post ->
      existsb is_dialog pre = true)
  /\ (a = Finalize \/ a = NoShow -> dialog_cancelled a env ->
      posts (click a env b) = []).
Proof.
  intro Ha. split.
  - intros pre url form post E.
    destruct (click_dialog_first a env b Ha) as (d & rest & Et & Hd).
    rewrite Et in E. destruct pre as [|x pre]; simpl in E.
    + injection E as -> _. discriminate Hd.
    + injection E as <- _. simpl. now rewrite Hd.
  - intros Hfn Hc.
    assert (Hc' : confirm_answer env = false)
      by (destruct Hfn as [->| ->]; exact Hc).
    destruct (click_cancelled_confirm a env b Hfn Hc') as (msg & E).
    unfold posts. rewrite E. reflexivity.
Qed.

Lemma C7_dialog_before_post_witness :
  posts (click Finalize env_dismissed_ok finalize_button) = []
  /\ posts (click NoShow env_dismissed_ok finalize_button) = [].
Proof.
  split.
  - apply (C7_dialog_before_post Finalize env_dismissed_ok finalize_button).
    + discriminate.
    + left. reflexivity.
    + reflexivity.
  - apply (C7_dialog_before_post NoShow env_dismissed_ok finalize_button).
    + discriminate.
    + right. reflexivity.
    + reflexivity.
Defined.

Lemma click_posted_trace (a : Action) (env : Env) (b : Button) url form :
  In (Posted url form) (trace (click a env b)) ->
  exists pre,
    forallb is_dialog pre = true
    /\ trace (click a env b)
       = pre ++ Posted url form :: after_post a (post_result env).
Proof.
  unfold after_post.
  destruct a; run_click;
    try destruct (confirm_answer env);
    split_url b; cbn;
    try (intro H; repeat (destruct H as [H|H]; try discriminate H);
         contradiction);
    split_answer env; cbn;
    intro H;
    repeat (destruct H as [H|H];
            [try discriminate H; try (injection H as <- <-)|]);
    try contradiction;
    first [ exists []; split; reflexivity
          | eexists [_]; split; [|reflexivity]; reflexivity ].
Qed.

Lemma dialogs_only (pre : list Event) :
  forallb is_dialog pre = true ->
  ~ In Reloaded pre /\ forall m, ~ In (Alerted m) pre.
Proof.
  intro H. rewrite forallb_forall in H.
  split; [|intro m]; intro Hin; apply H in Hin; discriminate.
Qed.

Lemma failed_with_intro a env b pre url form e :
  forallb is_dialog pre = true ->
  trace (click a env b)
  = pre ++ [Posted url form; Alerted (alert_prefix a ^^ err_message e)] ->
  failed_with a (click a env b) e.
Proof.
  intros Hpre E. destruct (click_button a env b) as (Hd & Ht & _).
  destruct (dialogs_only pre Hpre) as [Hr _].
  unfold failed_with. rewrite E. repeat split; auto.
  - apply in_or_app. right. simpl. auto.
  - intro Hin. apply in_app_or in Hin. destruct Hin as [Hin|Hin]; auto.
    simpl in Hin. intuition discriminate.
Qed.

(** C8 as worded does not hold on a button whose label is not the literal
    of the handler: no handler remembers the label the button had, the
    [finally] block writes a fixed one. *)
Lemma C8_label_not_restored :
  let w := click Confirm env_server_error plain_confirm_button in
  trace w
  = [ Posted "/solicitacoes/7/confirmar/"
        [("servico_id", "3"); ("preco_cotado", "45.00")];
      Alerted "Erro ao confirmar: HTTP 500 - Server Error (500)" ]
  /\ textContent (btn w) = "✅ Confirmar"
  /\ textContent (btn w) <> textContent plain_confirm_button.
Proof. repeat split. discriminate. Qed.

(** C8 (as the code has it). When the POST of a staff action fails (the
    request is rejected, or answered outside 200-299), the button is enabled
    again, its label is set to the idle label of the action (which is the
    label it had before whenever it was rendered with that label), and the
    message of the error is alerted with the prefix of the action; no reload
    is asked.  When the POST succeeds a reload is asked and nothing is
    alerted. *)
Theorem C8_failed_post_resets_button (a : Action) (env : Env) (b : Button)
    (url : string) (form : list (string * string)) :
  In (Posted url form) (trace (click a env b)) ->
  let w := click a env b in
  (forall e, post_result env = FetchFail e -> failed_with a w e)
  /\ (forall resp txt,
        post_result env = FetchOk resp -> ok resp = false ->
        text resp = TextOk txt ->
        failed_with a w
          (Error ("HTTP " ^^ String_of (status resp) ^^ " - " ^^ txt)))
  /\ (forall resp e,
        post_result env = FetchOk resp -> ok resp = false ->
        text resp = TextFail e ->
        failed_with a w e)
  /\ (forall resp,
        post_result env = FetchOk resp -> ok resp = true ->
        In Reloaded (trace w) /\ forall m, ~ In (Alerted m) (trace w))
  /\ (textContent b = idle_label a -> textContent (btn w) = textContent b).
Proof.
  intro Hposted. cbv zeta.
  destruct (click_posted_trace a env b url form Hposted) as (pre & Hpre & E).
  unfold after_post in E.
  split; [|split; [|split; [|split]]].
  - intros e Hnet. rewrite Hnet in E.
    eapply failed_with_intro; eauto.
  - intros resp txt Hnet Hok Htxt. rewrite Hnet, Hok, Htxt in E.
    eapply failed_with_intro; eauto.
  - intros resp e Hnet Hok Htxt. rewrite Hnet, Hok, Htxt in E.
    eapply failed_with_intro; eauto.
  - intros resp Hnet Hok. rewrite Hnet, Hok in E. rewrite E.
    destruct (dialogs_only pre Hpre) as [_ Ha].
    split.
    + apply in_or_app. right. simpl. auto.
    + intros m Hin. apply in_app_or in Hin. destruct Hin as [Hin|Hin].
      * exact (Ha m Hin).
      * simpl in Hin. intuition discriminate.
  - intro Hl. rewrite Hl. apply click_button.
Qed.

Lemma C8_failed_post_resets_button_witness :
  let w := click Confirm env_server_error confirm_button in
  failed_with Confirm w (Error "HTTP 500 - Server Error (500)")
  /\ textContent (btn w) = textContent confirm_button.
Proof.
  assert (Hposted :
            In (Posted "/solicitacoes/7/confirmar/"
                  [("servico_id", "3"); ("preco_cotado", "45.00")])
               (trace (click Confirm env_server_error confirm_button)))
    by (left; reflexivity).
  pose proof (C8_failed_post_resets_button Confirm env_server_error
                confirm_button _ _ Hposted) as H.
  cbv zeta in H. destruct H as (_ & H1 & _ & _ & H2).
  split.
  - exact (H1 _ "Server Error (500)" eq_refl eq_refl eq_refl).
  - exact (H2 eq_refl).
Defined.

(** A successful confirm asks for the reload. *)
Example confirm_success_reloads :
  trace (click Confirm env_dismissed_ok confirm_button)
  = [ Posted "/solicitacoes/7/confirmar/"
        [("servico_id", "3"); ("preco_cotado", "45.00")];
      Reloaded ].
Proof. reflexivity. Qed.

(** * Further properties of the scripts *)

(** ** The bucketizer as a whole *)

Lemma str_lt_irrefl (a : string) : ~ str_lt a a.
Proof.
  unfold str_lt. intro H. pose proof (String.compare_antisym a a) as E.
  rewrite H in E. discriminate.
Qed.

Lemma StronglySorted_app {A} (R : A -> A -> Prop) (l1 l2 : list A) :
  StronglySorted R l1 -> StronglySorted R l2 ->
  (forall x y, In x l1 -> In y l2 -> R x y) ->
  StronglySorted R (l1 ++ l2).
Proof.
  induction 1 as [|x l1 Hs IH Hall]; simpl; intros H2 Hc; auto.
  constructor.
  - apply IH; auto.
  - apply Forall_app. split.
    + exact Hall.
    + rewrite Forall_forall. intros y Hy. apply Hc; auto.
Qed.

(** Two strictly ascending lists with the same members are the same list. *)
Lemma str_sorted_unique (l1 l2 : list string) :
  StronglySorted str_lt l1 -> StronglySorted str_lt l2 ->
  (forall x, In x l1 <-> In x l2) -> l1 = l2.
Proof.
  intro H1. revert l2.
  induction H1 as [|x l1 Hs1 IH Hall1]; intros l2 H2 Hm.
  - destruct l2 as [|y l2]; auto.
    destruct (proj2 (Hm y) (or_introl eq_refl)).
  - destruct H2 as [|y l2 Hs2 Hall2].
    + destruct (proj1 (Hm x) (or_introl eq_refl)).
    + rewrite Forall_forall in Hall1, Hall2.
      assert (x = y).
      { destruct (proj1 (Hm x) (or_introl eq_refl)) as [E|Hx]; auto.
        destruct (proj2 (Hm y) (or_introl eq_refl)) as [E|Hy]; auto.
        exfalso. apply (str_lt_irrefl x).
        eapply str_lt_trans; [apply Hall1, Hy | apply Hall2, Hx]. }
      subst y. f_equal. apply IH; auto.
      intro z. split; intro Hz.
      * destruct (proj1 (Hm z) (or_intror Hz)) as [E|Hz']; auto.
        subst z. exfalso. apply (str_lt_irrefl x), Hall1, Hz.
      * destruct (proj2 (Hm z) (or_intror Hz)) as [E|Hz']; auto.
        subst z. exfalso. apply (str_lt_irrefl x), Hall2, Hz.
Qed.

Lemma valid_time_shape (t : string) :
  test_hhmm t = true ->
  exists a b rest,
    t = String a (String b rest)
    /\ hourOf t = String a (String b EmptyString)
    /\ is_digit a = true /\ is_digit b = true.
Proof.
  destruct t as [|a [|b [|c [|d [|e [|? ?]]]]]]; cbn [test_hhmm];
    try discriminate.
  intro H. do 4 (apply andb_prop in H; destruct H as [H ?]).
  exists a, b, (String c (String d (String e EmptyString))).
  unfold hourOf. cbn [split_first].
  rewrite (is_digit_not_colon a), (is_digit_not_colon b) by assumption.
  match goal with E : Ascii.eqb c ":" = true |- _ => rewrite E end.
  auto.
Qed.

(** A smaller hour number means an earlier string. *)
Lemma hour_order_times (t1 t2 : string) (h1 h2 : Z) :
  test_hhmm t1 = true -> test_hhmm t2 = true ->
  Number (hourOf t1) = Num h1 -> Number (hourOf t2) = Num h2 ->
  h1 < h2 -> str_lt t1 t2.
Proof.
  intros V1 V2 N1 N2 Hlt.
  destruct (valid_time_shape t1 V1) as (a1 & b1 & r1 & -> & E1 & Da1 & Db1).
  destruct (valid_time_shape t2 V2) as (a2 & b2 & r2 & -> & E2 & Da2 & Db2).
  rewrite E1, Number_two_digits in N1 by assumption.
  rewrite E2, Number_two_digits in N2 by assumption.
  assert (H1 : 10 * digit_value a1 + digit_value b1 = h1) by congruence.
  assert (H2 : 10 * digit_value a2 + digit_value b2 = h2) by congruence.
  pose proof (is_digit_range _ Da1). pose proof (is_digit_range _ Db1).
  pose proof (is_digit_range _ Da2). pose proof (is_digit_range _ Db2).
  unfold str_lt. cbn [String.compare]. unfold Ascii.compare.
  unfold digit_value in *.
  destruct (N.compare_spec (N_of_ascii a1) (N_of_ascii a2)) as [E|L|G];
    [|reflexivity|lia].
  destruct (N.compare_spec (N_of_ascii b1) (N_of_ascii b2)) as [E'|L'|G'];
    [lia|reflexivity|lia].
Qed.

Lemma times_of_cons g secs : times_of (g :: secs) = list_ g ++ times_of secs.
Proof. reflexivity. Qed.

Lemma times_of_In secs t :
  In t (times_of secs) <-> exists g, In g secs /\ In t (list_ g).
Proof.
  unfold times_of. rewrite in_concat. split.
  - intros (l & Hl & Ht). apply in_map_iff in Hl.
    destruct Hl as (g & <- & Hg). eauto.
  - intros (g & Hg & Ht). exists (list_ g). split; auto. now apply in_map.
Qed.

Lemma bucket_times_In slots b t :
  In t (times_of (bucket_get (buildSections slots) b))
  <-> In t (filter (in_bucket b) (cleaned slots)).
Proof.
  rewrite times_of_In, filter_In. unfold in_bucket. split.
  - intros (g & Hg & Ht). destruct (group_times _ _ _ _ Hg Ht) as [Hc Hh].
    split; auto. apply bucket_eqb_eq.
    apply group_in_bucket in Hg. destruct Hg as (Hb & _). congruence.
  - intros [Hc Hb]. apply bucket_eqb_eq in Hb.
    apply cleaned_In in Hc. destruct Hc as [Hin Hv].
    apply (assigned_iff slots t b Hin Hv). auto.
Qed.

Lemma groups_times_sorted slots b (secs : list HourGroup) :
  StronglySorted hour_lt secs ->
  (forall g, In g secs -> In g (bucket_get (buildSections slots) b)) ->
  StronglySorted str_lt (times_of secs).
Proof.
  intro Hs. induction Hs as [|g secs Hs IH Hall]; intro Hin.
  - constructor.
  - rewrite times_of_cons. apply StronglySorted_app.
    + eapply group_list_sorted, Hin. now left.
    + apply IH. intros; apply Hin; now right.
    + intros x y Hx Hy. apply times_of_In in Hy.
      destruct Hy as (g' & Hg' & Hy).
      rewrite Forall_forall in Hall. specialize (Hall g' Hg').
      destruct (group_times slots b g x (Hin g (or_introl eq_refl)) Hx)
        as [Hcx Hhx].
      destruct (group_times slots b g' y (Hin g' (or_intror Hg')) Hy)
        as [Hcy Hhy].
      apply cleaned_In in Hcx, Hcy.
      unfold hour_lt in Hall. rewrite <- Hhx, <- Hhy in Hall.
      destruct (Number (hourOf x)) as [|h1] eqn:E1; [contradiction|].
      destruct (Number (hourOf y)) as [|h2] eqn:E2; [contradiction|].
      eapply hour_order_times; eauto; tauto.
Qed.

Lemma bucket_times_sorted slots b :
  StronglySorted str_lt (times_of (bucket_get (buildSections slots) b)).
Proof.
  apply (groups_times_sorted slots b); [apply bucket_sorted | auto].
Qed.

(** X1. Read top to bottom, the times of a bucket are the valid times of
    the fetched list whose hour belongs to the bucket, each once, in
    ascending order: the cleaned list with the other buckets left out. *)
Theorem bucket_lists_cleaned_times (slots : list string) (b : bucket) :
  times_of (bucket_get (buildSections slots) b)
  = filter (in_bucket b) (cleaned slots).
Proof.
  apply str_sorted_unique.
  - apply bucket_times_sorted.
  - apply StronglySorted_filter, cleaned_sorted.
  - intro t. apply bucket_times_In.
Qed.

Lemma bucket_times_length slots b :
  List.length (times_of (bucket_get (buildSections slots) b))
  = List.length (filter (in_bucket b) (cleaned slots)).
Proof.
  f_equal. apply str_sorted_unique.
  - apply bucket_times_sorted.
  - apply StronglySorted_filter, cleaned_sorted.
  - intro t. apply bucket_times_In.
Qed.

Lemma count_of_times (secs : list HourGroup) :
  count_of secs = Z.of_nat (List.length (times_of secs)).
Proof.
  induction secs as [|g secs IH].
  - reflexivity.
  - rewrite count_of_cons, times_of_cons, length_app, IH. lia.
Qed.

Lemma in_bucket_partition (l : list string) :
  (List.length (filter (in_bucket Morning) l)
   + List.length (filter (in_bucket Afternoon) l)
   + List.length (filter (in_bucket Evening) l))%nat
  = List.length l.
Proof.
  unfold in_bucket. induction l as [|t l IH]; [reflexivity|].
  cbn [filter].
  destruct (bucketOfHour (hourOf t)); cbn [bucket_eqb List.length]; lia.
Qed.

(** X2. The three counts shown on the tabs add up to the number of distinct
    valid times of the fetched list: no time is lost or counted twice. *)
Theorem tab_counts_total (slots : list string) :
  let counts := bucket_map count_of (buildSections slots) in
  morning counts + afternoon counts + evening counts
  = Z.of_nat (List.length (cleaned slots)).
Proof.
  cbv zeta. cbn [bucket_map morning afternoon evening].
  rewrite !count_of_times.
  change (morning (buildSections slots))
    with (bucket_get (buildSections slots) Morning).
  change (afternoon (buildSections slots))
    with (bucket_get (buildSections slots) Afternoon).
  change (evening (buildSections slots))
    with (bucket_get (buildSections slots) Evening).
  rewrite !bucket_times_length.
  rewrite <- (in_bucket_partition (cleaned slots)). lia.
Qed.

Lemma cleaned_same_members (s1 s2 : list string) :
  (forall t, test_hhmm t = true -> (In t s1 <-> In t s2)) ->
  cleaned s1 = cleaned s2.
Proof.
  intro H. apply str_sorted_unique; try apply cleaned_sorted.
  intro t. rewrite !cleaned_In. split; intros [Hin Hv]; split; auto;
    now apply (H t Hv).
Qed.

(** X3. The sections depend only on which valid times the fetched list
    holds: order, repetitions and entries that fail the test do not
    matter. *)
Theorem buildSections_same_members (s1 s2 : list string) :
  (forall t, test_hhmm t = true -> (In t s1 <-> In t s2)) ->
  buildSections s1 = buildSections s2.
Proof.
  intro H. unfold buildSections. now rewrite (cleaned_same_members s1 s2 H).
Qed.

Lemma buildSections_same_members_witness :
  buildSections ["10:30"; "soon"; "09:00"; "10:30"]
  = buildSections ["09:00"; "10:30"].
Proof.
  apply (buildSections_same_members
           ["10:30"; "soon"; "09:00"; "10:30"] ["09:00"; "10:30"]).
  intros t Hv. simpl. split.
  - intros [<-|[<-|[<-|[<-|[]]]]]; auto. discriminate Hv.
  - intros [<-|[<-|[]]]; auto.
Defined.

(** X4. The test does not bound the hour: a time whose hour digits denote
    24 or more passes it and is listed in the evening bucket. *)
Theorem unbounded_hours_in_evening (slots : list string) (t : string) (h : Z) :
  In t slots -> test_hhmm t = true ->
  Number (hourOf t) = Num h -> 24 <= h ->
  forall b, assigned (buildSections slots) t b <-> b = Evening.
Proof.
  intros Hin Hv Hh Hr b. rewrite (assigned_iff slots t b Hin Hv).
  destruct (bucketOfHour_table _ _ Hh) as (_ & _ & He).
  rewrite He by lia. reflexivity.
Qed.

Lemma unbounded_hours_in_evening_witness :
  test_hhmm "27:80" = true
  /\ forall b, assigned (buildSections ["27:80"; "09:00"]) "27:80" b
               <-> b = Evening.
Proof.
  split; [reflexivity|].
  apply (unbounded_hours_in_evening ["27:80"; "09:00"] "27:80" 27).
  - left. reflexivity.
  - reflexivity.
  - reflexivity.
  - lia.
Defined.

(** X5. No group is empty, every group sits in the bucket of its hour, and
    an hour labels at most one group in the whole structure. *)
Theorem groups_well_formed (slots : list string) (b : bucket) (g : HourGroup) :
  In g (bucket_get (buildSections slots) b) ->
  list_ g <> []
  /\ two_digits (hour g)
  /\ bucketOfHour (hour g) = b
  /\ forall b' g', In g' (bucket_get (buildSections slots) b') ->
                   hour g' = hour g -> g' = g /\ b' = b.
Proof.
  intro Hg. pose proof (group_hour_two_digits _ _ _ Hg) as Htwo.
  apply group_in_bucket in Hg. destruct Hg as (Hb & Hl & Hne).
  repeat split; auto.
  - apply group_in_bucket in H. destruct H as (_ & Hl' & _).
    destruct g as [h l], g' as [h' l']. simpl in *. congruence.
  - apply group_in_bucket in H. destruct H as (Hb' & _). congruence.
Qed.

Lemma groups_well_formed_witness :
  list_ {| hour := "09"; list_ := ["09:00"; "09:45"] |} <> []
  /\ bucketOfHour "09" = Morning.
Proof.
  destruct (groups_well_formed ["10:30"; "09:00"; "09:45"] Morning
              {| hour := "09"; list_ := ["09:00"; "09:45"] |})
    as (H1 & _ & H2 & _).
  - left. reflexivity.
  - split; [exact H1 | exact H2].
Defined.

(** ** Rendering and tab switches *)

Lemma renderSections_grid b p :
  slotsGrid (renderSections b p)
  = match slotsGrid p with [] => [] | n :: _ => [n] end
    ++ section_nodes (bucket_get (sectionsByBucket (slotsState p)) b).
Proof.
  unfold renderSections, section_nodes. cbn [sectionsByBucket].
  destruct (bucket_get (sectionsByBucket (slotsState p)) b); reflexivity.
Qed.

Lemma renderSections_state b p :
  slotsState (renderSections b p)
  = {| sectionsByBucket := sectionsByBucket (slotsState p);
       activeBucket := b;
       dayStr := dayStr (slotsState p) |}.
Proof.
  unfold renderSections. cbn [sectionsByBucket].
  destruct (bucket_get (sectionsByBucket (slotsState p)) b); reflexivity.
Qed.

Lemma renderSections_ready b p :
  slotsWrap_ready (renderSections b p)
  = slotsWrap_ready p
    || match bucket_get (sectionsByBucket (slotsState p)) b with
       | [] => false
       | _ :: _ => true
       end.
Proof.
  unfold renderSections. cbn [sectionsByBucket].
  destruct (bucket_get (sectionsByBucket (slotsState p)) b); cbn;
    [now rewrite orb_false_r | now rewrite orb_true_r].
Qed.

Lemma renderSections_rest b p :
  slotsErr_hidden (renderSections b p) = slotsErr_hidden p
  /\ errDetail (renderSections b p) = errDetail p
  /\ slotsEmpty_hidden (renderSections b p) = slotsEmpty_hidden p
  /\ slotsSkeleton_hidden (renderSections b p) = slotsSkeleton_hidden p
  /\ toStep4_disabled (renderSections b p) = toStep4_disabled p
  /\ inicioInput (renderSections b p) = inicioInput p
  /\ console (renderSections b p) = console p.
Proof.
  unfold renderSections. cbn [sectionsByBucket].
  destruct (bucket_get (sectionsByBucket (slotsState p)) b);
    repeat split; reflexivity.
Qed.

Lemma node_times_hour_nodes (o : bool) (secs : list HourGroup) :
  node_times (map (hour_node o) secs) = times_of secs.
Proof.
  induction secs as [|g secs IH]; [reflexivity|].
  rewrite times_of_cons, <- IH. reflexivity.
Qed.

Lemma node_times_sections (secs : list HourGroup) :
  node_times (section_nodes secs) = times_of secs.
Proof.
  destruct secs as [|g secs]; [reflexivity|].
  rewrite times_of_cons, <- (node_times_hour_nodes false secs). reflexivity.
Qed.

Lemma displayed_after_render b p :
  has_tabs p ->
  displayed_times (renderSections b p)
  = times_of (bucket_get (sectionsByBucket (slotsState p)) b).
Proof.
  unfold has_tabs, displayed_times. intro H.
  rewrite renderSections_grid.
  destruct (slotsGrid p) as [|[tabs| |] rest]; try contradiction.
  cbn [app flat_map]. apply node_times_sections.
Qed.

(** X6. A click on a tab is a pure re-render that keeps the first child of
    the grid: after two clicks the grid and the state are what the second
    click alone gives, the first child (the tab bar, with its active mark)
    is the one from before, and the start value and the lock of step 4 are
    untouched.  The [ready] mark of the wrapper is only ever added: it is
    set when either click showed a bucket with entries. *)
Theorem tab_switch_is_rerender (b1 b2 : bucket) (p : Page) :
  slotsGrid p <> [] ->
  let q := renderSections b2 (renderSections b1 p) in
  slotsGrid q = slotsGrid (renderSections b2 p)
  /\ slotsState q = slotsState (renderSections b2 p)
  /\ hd_error (slotsGrid q) = hd_error (slotsGrid p)
  /\ inicioInput q = inicioInput p
  /\ toStep4_disabled q = toStep4_disabled p
  /\ slotsWrap_ready q
     = slotsWrap_ready (renderSections b1 p)
       || slotsWrap_ready (renderSections b2 p).
Proof.
  intro Hne. cbv zeta.
  destruct (slotsGrid p) as [|n rest] eqn:Eg; [congruence|].
  repeat split.
  - rewrite !renderSections_grid, !renderSections_state, Eg.
    cbn [sectionsByBucket app]. reflexivity.
  - rewrite !renderSections_state. reflexivity.
  - rewrite !renderSections_grid, Eg. reflexivity.
  - destruct (renderSections_rest b2 (renderSections b1 p))
      as (_ & _ & _ & _ & _ & -> & _).
    apply renderSections_rest.
  - destruct (renderSections_rest b2 (renderSections b1 p))
      as (_ & _ & _ & _ & -> & _).
    apply renderSections_rest.
  - rewrite !renderSections_ready, !renderSections_state.
    cbn [sectionsByBucket].
    destruct (slotsWrap_ready p),
      (bucket_get (sectionsByBucket (slotsState p)) b1),
      (bucket_get (sectionsByBucket (slotsState p)) b2); reflexivity.
Qed.

Lemma tab_switch_is_rerender_witness :
  slotsGrid (renderSections Evening (renderSections Morning page_fetched))
  = slotsGrid (renderSections Evening page_fetched)
  /\ slotsWrap_ready (renderSections Evening page_fetched) = true.
Proof.
  destruct (tab_switch_is_rerender Morning Evening page_fetched)
    as (H1 & _).
  - discriminate.
  - split; [exact H1 | reflexivity].
Defined.

(** X10. With the tab bar in place, the number of time buttons shown for a
    bucket is the count of that bucket as computed for its tab. *)
Theorem tab_count_is_buttons_shown (b : bucket) (p : Page) :
  has_tabs p ->
  count_of (bucket_get (sectionsByBucket (slotsState p)) b)
  = Z.of_nat (List.length (displayed_times (renderSections b p))).
Proof.
  intro H. rewrite (displayed_after_render b p H). apply count_of_times.
Qed.

Lemma tab_count_is_buttons_shown_witness :
  count_of (bucket_get (sectionsByBucket (slotsState page_fetched)) Morning)
  = Z.of_nat (List.length (displayed_times (renderSections Morning page_fetched))).
Proof.
  apply (tab_count_is_buttons_shown Morning page_fetched). exact I.
Defined.

(** ** Outcomes of a day-slot fetch *)

Lemma fetchSlotsFor_render_fields slots nowHours q :
  let b0 := initialBucket_of (guess_of nowHours)
              (bucket_map count_of (buildSections slots)) in
  let r := fetchSlotsFor_render slots nowHours q in
  slotsGrid r
  = match slotsGrid q ++ [renderTabs b0 (bucket_map count_of (buildSections slots))]
    with [] => [] | n :: _ => [n] end
    ++ section_nodes (bucket_get (buildSections slots) b0)
  /\ slotsState r = {| sectionsByBucket := buildSections slots;
                       activeBucket := b0;
                       dayStr := dayStr (slotsState q) |}
  /\ slotsErr_hidden r = slotsErr_hidden q
  /\ slotsEmpty_hidden r = slotsEmpty_hidden q
  /\ slotsSkeleton_hidden r = true
  /\ toStep4_disabled r = toStep4_disabled q
  /\ inicioInput r = inicioInput q
  /\ console r = console q.
Proof.
  cbv zeta. unfold fetchSlotsFor_render.
  cbn [slotsGrid slotsState slotsErr_hidden slotsEmpty_hidden
       slotsSkeleton_hidden toStep4_disabled inicioInput console].
  rewrite renderSections_grid, renderSections_state.
  match goal with
  | |- context [renderSections ?b ?p1] =>
      destruct (renderSections_rest b p1)
        as (E1 & _ & E2 & _ & E3 & E4 & E5)
  end.
  rewrite E1, E2, E3, E4, E5.
  repeat split; reflexivity.
Qed.

Lemma section_nodes_not_nil secs : section_nodes secs <> [].
Proof. destruct secs; discriminate. Qed.

Lemma slot_states_exclusive (p : Page) :
  (shows_error p -> ~ shows_empty p /\ ~ shows_tabs p)
  /\ (shows_empty p -> ~ shows_tabs p).
Proof.
  unfold shows_error, shows_empty, shows_tabs.
  split; [intros (He & Hm & Hg); split|intros (He & Hm & Hg)].
  - intros (He' & _). congruence.
  - intros (He' & _). congruence.
  - intros (_ & Hm' & _). congruence.
Qed.

(** X7. Take a slot area that is still as the reset of a fetch leaves it
    (both panels hidden, grid empty: no other fetch has settled since) and
    let the answer of that fetch settle, the [slots] of an answer being an
    array of strings.  The skeleton is then hidden and the area is in
    exactly one of three states.  A failed request, a status outside
    200-299 or a body that does not parse shows the error panel and logs
    one error.  An answer whose [slots] is missing or empty shows the "no
    availability" panel.  An answer with a non-empty [slots] shows the
    three tabs over a non-empty body.  Nothing is logged in the last two
    cases. *)
Theorem fetch_ends_in_one_state pathname
    (res : FetchResult SlotsPayload) nowHours (q : Page) :
  slotsErr_hidden q = true -> slotsEmpty_hidden q = true ->
  slotsGrid q = [] ->
  let p' := fetchSlotsFor_settle pathname res nowHours q in
  slotsSkeleton_hidden p' = true
  /\ (shows_error p' -> ~ shows_empty p' /\ ~ shows_tabs p')
  /\ (shows_empty p' -> ~ shows_tabs p')
  /\ match res with
     | FetchFail e =>
         shows_error p' /\ console p' = console q ++ [Err "[slots] erro:" e]
     | FetchOk resp =>
         if ok resp then
           match json resp with
           | JsonThrows e =>
               shows_error p'
               /\ console p' = console q ++ [Err "[slots] erro:" e]
           | JsonData None | JsonData (Some []) =>
               shows_empty p' /\ console p' = console q
           | JsonData (Some (_ :: _)) =>
               shows_tabs p' /\ console p' = console q
           end
         else
           shows_error p'
           /\ exists e, console p' = console q ++ [Err "[slots] erro:" e]
     end.
Proof.
  intros Hqe Hqm Hqg. cbv zeta.
  split; [|split; [apply slot_states_exclusive|
                   split; [apply slot_states_exclusive|]]].
  - unfold fetchSlotsFor_settle.
    destruct res as [e|resp]; [reflexivity|].
    destruct (ok resp); cbn [negb].
    + destruct (json resp) as [e|[[|t slots]|]]; reflexivity.
    + destruct (text resp); reflexivity.
  - unfold fetchSlotsFor_settle, shows_error, shows_empty.
    destruct res as [e|resp].
    + cbn. rewrite Hqm, Hqg. repeat split; reflexivity.
    + destruct (ok resp); cbn [negb].
      * destruct (json resp) as [e|[[|t slots]|]];
          try (cbn; rewrite ?Hqe, ?Hqm, ?Hqg; repeat split; reflexivity).
        destruct (fetchSlotsFor_render_fields (t :: slots) nowHours q)
          as (Eg & _ & Ee & Em & _ & _ & _ & Ec).
        cbv zeta in Eg. rewrite Hqg in Eg. cbn [app] in Eg.
        split; [|exact Ec].
        unfold shows_tabs. rewrite Ee, Em, Eg.
        repeat split; auto.
        eexists _, _. split; [reflexivity|].
        split; [reflexivity | apply section_nodes_not_nil].
      * destruct (text resp) as [txt|e]; cbn; rewrite Hqm, Hqg;
          (split; [repeat split; reflexivity | eexists; reflexivity]).
Qed.

Lemma fetch_ends_in_one_state_witness :
  shows_empty (fetchSlotsFor "shop" None "2025-03-10"
                 (FetchOk (answer_slots [])) 14 page0)
  /\ shows_error (fetchSlotsFor "shop" None "2025-03-10"
                    (FetchFail network_down) 14 page0)
  /\ shows_tabs page_fetched.
Proof.
  split; [|split].
  - destruct (fetch_ends_in_one_state (SLOTS_URL "shop" None)
                (FetchOk (answer_slots [])) 14
                (fetchSlotsFor_reset "2025-03-10" page0)
                eq_refl eq_refl eq_refl) as (_ & _ & _ & H & _).
    exact H.
  - destruct (fetch_ends_in_one_state (SLOTS_URL "shop" None)
                (FetchFail network_down) 14
                (fetchSlotsFor_reset "2025-03-10" page0)
                eq_refl eq_refl eq_refl) as (_ & _ & _ & H & _).
    exact H.
  - destruct (fetch_ends_in_one_state (SLOTS_URL "shop" None)
                (FetchOk (answer_slots ["09:00"; "14:30"])) 14
                (fetchSlotsFor_reset "2025-03-10" page0)
                eq_refl eq_refl eq_refl) as (_ & _ & _ & H & _).
    exact H.
Defined.

(** X8. Whatever its outcome, a day-slot fetch drops the time chosen
    before: the start value is emptied, step 4 is locked, and the state
    remembers the day asked for. *)
Theorem fetch_drops_selection SHOP BARBER dateStr
    (res : FetchResult SlotsPayload) nowHours p :
  let p' := fetchSlotsFor SHOP BARBER dateStr res nowHours p in
  inicioInput p' = ""
  /\ toStep4_disabled p' = true
  /\ dayStr (slotsState p') = dateStr.
Proof.
  cbv zeta. unfold fetchSlotsFor, fetchSlotsFor_settle.
  destruct res as [e|resp]; [repeat split; reflexivity|].
  destruct (ok resp); cbn [negb].
  - destruct (json resp) as [e|[[|t slots]|]];
      try (repeat split; reflexivity).
    destruct (fetchSlotsFor_render_fields (t :: slots) nowHours
                (fetchSlotsFor_reset dateStr p))
      as (_ & Est & _ & _ & _ & E4 & Ei & _).
    rewrite Est, E4, Ei. repeat split; reflexivity.
  - destruct (text resp); repeat split; reflexivity.
Qed.

(** ** From the fetch to the chosen time *)

Lemma fetchSlotsFor_settle_success pathname (resp : Response SlotsPayload)
    slots nowHours q :
  ok resp = true -> json resp = JsonData (Some slots) -> slots <> [] ->
  fetchSlotsFor_settle pathname (FetchOk resp) nowHours q
  = fetchSlotsFor_render slots nowHours q.
Proof.
  intros Hok Hj Hne. unfold fetchSlotsFor_settle.
  rewrite Hok, Hj. cbn [negb]. destruct slots; [congruence|reflexivity].
Qed.

Lemma has_tabs_render b p : has_tabs p -> has_tabs (renderSections b p).
Proof.
  unfold has_tabs. rewrite renderSections_grid.
  destruct (slotsGrid p) as [|[tabs| |] rest]; try contradiction.
  intros _. exact I.
Qed.

(** What a series of tab clicks keeps. *)
Lemma tab_clicks_keep (S : Buckets (list HourGroup)) (d : string) bs :
  forall q,
    has_tabs q -> sectionsByBucket (slotsState q) = S ->
    dayStr (slotsState q) = d ->
    (exists b, displayed_times q = times_of (bucket_get S b)) ->
    dayStr (slotsState (tab_clicks bs q)) = d
    /\ exists b, displayed_times (tab_clicks bs q) = times_of (bucket_get S b).
Proof.
  unfold tab_clicks.
  induction bs as [|b bs IH]; intros q Ht Hs Hd Hb; cbn [fold_left].
  - auto.
  - apply IH.
    + now apply has_tabs_render.
    + rewrite renderSections_state. exact Hs.
    + rewrite renderSections_state. exact Hd.
    + exists b. rewrite displayed_after_render by assumption. now rewrite Hs.
Qed.

Lemma render_shows_bucket slots nowHours q :
  slotsGrid q = [] ->
  let r := fetchSlotsFor_render slots nowHours q in
  has_tabs r
  /\ displayed_times r
     = times_of (bucket_get (buildSections slots) (activeBucket (slotsState r))).
Proof.
  intro Eq. cbv zeta.
  destruct (fetchSlotsFor_render_fields slots nowHours q)
    as (Eg & Est & _).
  cbv zeta in Eg. rewrite Eq in Eg. cbn [app] in Eg.
  unfold has_tabs, displayed_times. rewrite Eg, Est.
  split; [exact I|]. cbn [activeBucket flat_map renderTabs app].
  apply node_times_sections.
Qed.

(** X9. After a successful fetch and any series of tab clicks, every time
    button on display carries a time of the fetched list that passed the
    test; a click on it writes the day of the fetch, the letter T, the
    time and :00 into the start field and unlocks step 4. *)
Theorem chosen_time_was_offered SHOP BARBER dateStr
    (resp : Response SlotsPayload) slots nowHours p (bs : list bucket)
    (fmtBR : string -> option string) (i : nat) (t : string)
    (area : SlotArea) :
  ok resp = true -> json resp = JsonData (Some slots) -> slots <> [] ->
  page area
  = tab_clicks bs (fetchSlotsFor SHOP BARBER dateStr (FetchOk resp) nowHours p) ->
  In t (displayed_times (page area)) ->
  In t slots /\ test_hhmm t = true
  /\ inicioInput (page (slot_click fmtBR i t area))
     = dateStr ^^ "T" ^^ t ^^ ":00"
  /\ toStep4_disabled (page (slot_click fmtBR i t area)) = false.
Proof.
  intros Hok Hj Hne Hpage Ht.
  rewrite (fetchSlotsFor_success _ _ _ _ _ _ _ Hok Hj Hne) in Hpage.
  set (r := fetchSlotsFor_render slots nowHours (fetchSlotsFor_reset dateStr p))
    in *.
  destruct (render_shows_bucket slots nowHours (fetchSlotsFor_reset dateStr p)
              eq_refl) as [Htabs Hshown].
  fold r in Htabs, Hshown.
  destruct (fetchSlotsFor_render_fields slots nowHours
              (fetchSlotsFor_reset dateStr p)) as (_ & Est & _).
  fold r in Est.
  destruct (tab_clicks_keep (buildSections slots) dateStr bs r) as [Hd [b Hb]];
    auto.
  - rewrite Est. reflexivity.
  - rewrite Est. reflexivity.
  - eauto.
  - rewrite <- Hpage in Hd, Hb. rewrite Hb in Ht.
    apply bucket_times_In, filter_In in Ht. destruct Ht as [Hc _].
    apply cleaned_In in Hc. destruct Hc as [Hin Hv].
    repeat split; auto.
    unfold slot_click. cbn [page inicioInput]. now rewrite Hd.
Qed.

Lemma chosen_time_was_offered_witness :
  let area := {| page := tab_clicks [Evening; Morning] page_fetched;
                 resDataHora := ""; marks := [] |} in
  In "09:00" (displayed_times (page area))
  /\ inicioInput (page (slot_click (fun _ => None) 1 "09:00" area))
     = "2025-03-10T09:00:00".
Proof.
  cbv zeta.
  assert (Hshown :
            In "09:00"
               (displayed_times (tab_clicks [Evening; Morning] page_fetched)))
    by (left; reflexivity).
  split; [exact Hshown|].
  destruct (chosen_time_was_offered "shop" None "2025-03-10"
              (answer_slots ["09:00"; "14:30"]) ["09:00"; "14:30"] 14 page0
              [Evening; Morning] (fun _ => None) 1 "09:00"
              {| page := tab_clicks [Evening; Morning] page_fetched;
                 resDataHora := ""; marks := [] |}
              eq_refl eq_refl ltac:(discriminate) eq_refl Hshown)
    as (_ & _ & H & _).
  exact H.
Defined.

(** X11. Two fetches in flight: the day of the second is asked while the
    first is pending, the second is answered first and the first last.
    The slot area then offers the times of the first day under the tab bar
    of the second, and a click on one of them books it on the second
    day. *)
Theorem late_answer_overwrites_times pathname dateA dateB
    (respA respB : Response SlotsPayload) slotsA slotsB nowA nowB p
    (fmtBR : string -> option string) (i : nat) (t : string) :
  ok respA = true -> json respA = JsonData (Some slotsA) -> slotsA <> [] ->
  ok respB = true -> json respB = JsonData (Some slotsB) -> slotsB <> [] ->
  let p1 := fetchSlotsFor_reset dateB (fetchSlotsFor_reset dateA p) in
  let p2 := fetchSlotsFor_settle pathname (FetchOk respB) nowB p1 in
  let p3 := fetchSlotsFor_settle pathname (FetchOk respA) nowA p2 in
  sectionsByBucket (slotsState p3) = buildSections slotsA
  /\ displayed_times p3
     = times_of (bucket_get (buildSections slotsA) (activeBucket (slotsState p3)))
  /\ hd_error (slotsGrid p3) = hd_error (slotsGrid p2)
  /\ dayStr (slotsState p3) = dateB
  /\ inicioInput
       (page (slot_click fmtBR i t
                {| page := p3; resDataHora := ""; marks := [] |}))
     = dateB ^^ "T" ^^ t ^^ ":00".
Proof.
  intros HokA HjA HneA HokB HjB HneB. cbv zeta.
  rewrite (fetchSlotsFor_settle_success _ _ _ _ _ HokB HjB HneB).
  rewrite (fetchSlotsFor_settle_success _ _ _ _ _ HokA HjA HneA).
  set (p1 := fetchSlotsFor_reset dateB (fetchSlotsFor_reset dateA p)).
  destruct (fetchSlotsFor_render_fields slotsB nowB p1)
    as (EgB & EstB & _).
  cbv zeta in EgB. cbn [p1 fetchSlotsFor_reset slotsGrid app] in EgB.
  set (p2 := fetchSlotsFor_render slotsB nowB p1) in *.
  destruct (fetchSlotsFor_render_fields slotsA nowA p2)
    as (EgA & EstA & _).
  cbv zeta in EgA. rewrite EgB in EgA. cbn [app] in EgA.
  set (p3 := fetchSlotsFor_render slotsA nowA p2) in *.
  assert (Hd : dayStr (slotsState p3) = dateB).
  { rewrite EstA. cbn [dayStr]. rewrite EstB. reflexivity. }
  repeat split.
  - rewrite EstA. reflexivity.
  - unfold displayed_times. rewrite EgA, EstA.
    cbn [activeBucket app flat_map renderTabs]. apply node_times_sections.
  - rewrite EgA, EgB. reflexivity.
  - exact Hd.
  - unfold slot_click. cbn [page inicioInput]. now rewrite Hd.
Qed.

Lemma late_answer_overwrites_times_witness :
  let p1 := fetchSlotsFor_reset "2025-03-11"
              (fetchSlotsFor_reset "2025-03-10" page0) in
  let p2 := fetchSlotsFor_settle "/pub/shop/slots/"
              (FetchOk (answer_slots ["16:00"])) 9 p1 in
  let p3 := fetchSlotsFor_settle "/pub/shop/slots/"
              (FetchOk (answer_slots ["09:00"])) 9 p2 in
  displayed_times p3 = ["09:00"]
  /\ dayStr (slotsState p3) = "2025-03-11".
Proof.
  cbv zeta.
  destruct (late_answer_overwrites_times "/pub/shop/slots/"
              "2025-03-10" "2025-03-11"
              (answer_slots ["09:00"]) (answer_slots ["16:00"])
              ["09:00"] ["16:00"] 9 9 page0 (fun _ => None) 1 "09:00"
              eq_refl eq_refl ltac:(discriminate)
              eq_refl eq_refl ltac:(discriminate))
    as (_ & H1 & _ & H2 & _).
  split; [rewrite H1; reflexivity | exact H2].
Defined.

(** X12. A click on a slot button marks it, leaves it the only marked
    button of its hour section, and leaves the marks of every other hour
    section as they were: the buttons of the other sections are not
    unmarked. *)
Theorem slot_click_marks (fmtBR : string -> option string) (i : nat)
    (t : string) (area : SlotArea) :
  let area' := slot_click fmtBR i t area in
  In (i, t) (marks area')
  /\ (forall u, In (i, u) (marks area') -> u = t)
  /\ (forall j u, j <> i -> (In (j, u) (marks area') <-> In (j, u) (marks area))).
Proof.
  cbv zeta. unfold slot_click. cbn [marks].
  split; [apply in_or_app; right; now left|].
  split.
  - intros u Hu. apply in_app_or in Hu. destruct Hu as [Hu|[Hu|[]]].
    + apply filter_In in Hu. destruct Hu as [_ Hu]. cbn [fst] in Hu.
      rewrite Nat.eqb_refl in Hu. discriminate.
    + congruence.
  - intros j u Hj. rewrite in_app_iff, filter_In. cbn [fst In].
    split.
    + intros [[H _]|[H|[]]]; [exact H | congruence].
    + intro H. left. split; [exact H|].
      apply negb_true_iff, Nat.eqb_neq. exact Hj.
Qed.

(** ** Phone mask *)

Lemma append_nil_r (s : string) : s ^^ "" = s.
Proof. induction s as [|c s IH]; simpl; [reflexivity | now rewrite IH]. Qed.

Lemma append_assoc (a b c : string) : (a ^^ b) ^^ c = a ^^ b ^^ c.
Proof. induction a as [|x a IH]; simpl; [reflexivity | now rewrite IH]. Qed.

Lemma length_append (a b : string) :
  String.length (a ^^ b) = (String.length a + String.length b)%nat.
Proof. induction a as [|x a IH]; simpl; [reflexivity | now rewrite IH]. Qed.

Lemma substring_full (s : string) : substring 0 (String.length s) s = s.
Proof. induction s as [|c s IH]; simpl; [reflexivity | now rewrite IH]. Qed.

Lemma substring_length_le (a k : nat) (s : string) :
  (String.length (substring a k s) <= k)%nat
  /\ (String.length (substring a k s) <= String.length s)%nat.
Proof.
  revert a k. induction s as [|c s IH]; intros [|a] [|k]; simpl; try lia.
  - destruct (IH 0%nat k). lia.
  - destruct (IH a 0%nat). lia.
  - destruct (IH a (S k)). lia.
Qed.

Lemma substring_all_short (k : nat) (s : string) :
  (String.length s <= k)%nat -> substring 0 k s = s.
Proof.
  revert k. induction s as [|c s IH]; intros [|k] H; simpl in *;
    try reflexivity; try lia.
  rewrite IH by lia. reflexivity.
Qed.

(** Cutting a tail in two. *)
Lemma substring_cut (a k : nat) (s : string) :
  substring a k s ^^ substring (a + k) (String.length s - (a + k)) s
  = substring a (String.length s - a) s.
Proof.
  revert a k. induction s as [|c s IH]; intros a k.
  - destruct a, k; reflexivity.
  - destruct a as [|a].
    + destruct k as [|k]; [reflexivity|].
      cbn [Nat.add String.length Nat.sub substring append].
      specialize (IH 0%nat k). cbn [Nat.add] in IH.
      rewrite Nat.sub_0_r in IH. rewrite IH. reflexivity.
    + cbn [Nat.add String.length Nat.sub substring]. apply IH.
Qed.

Lemma slices_cover (a b : nat) (s : string) :
  (a <= b)%nat ->
  slice 0 a s ^^ slice a b s ^^ slice_from b s = s.
Proof.
  intro H. unfold slice, slice_from.
  replace b with (a + (b - a))%nat at 2 3 by lia.
  rewrite substring_cut.
  rewrite Nat.sub_0_r.
  pose proof (substring_cut 0 a s) as E. cbn [Nat.add] in E.
  rewrite E, Nat.sub_0_r. apply substring_full.
Qed.

Lemma slices_cover4 (a b c : nat) (s : string) :
  (a <= b)%nat -> (b <= c)%nat ->
  slice 0 a s ^^ slice a b s ^^ slice b c s ^^ slice_from c s = s.
Proof.
  intros H1 H2. unfold slice at 3. unfold slice_from.
  replace c with (b + (c - b))%nat at 2 3 by lia.
  rewrite substring_cut. apply (slices_cover a b s H1).
Qed.

Lemma remove_non_digits_app (a b : string) :
  remove_non_digits (a ^^ b) = remove_non_digits a ^^ remove_non_digits b.
Proof.
  induction a as [|c a IH]; simpl; [reflexivity|].
  destruct (is_digit c); simpl; now rewrite IH.
Qed.

Lemma remove_non_digits_all (s : string) :
  str_all is_digit (remove_non_digits s) = true.
Proof.
  induction s as [|c s IH]; simpl; [reflexivity|].
  destruct (is_digit c) eqn:E; simpl; [now rewrite E|exact IH].
Qed.

Lemma remove_non_digits_id (s : string) :
  str_all is_digit s = true -> remove_non_digits s = s.
Proof.
  induction s as [|c s IH]; simpl; [reflexivity|].
  intro H. apply andb_prop in H. destruct H as [Hc Hs].
  rewrite Hc, IH by assumption. reflexivity.
Qed.

Lemma substring_all (f : ascii -> bool) (a k : nat) (s : string) :
  str_all f s = true -> str_all f (substring a k s) = true.
Proof.
  revert a k. induction s as [|c s IH]; intros [|a] [|k] H; simpl in *;
    try reflexivity; apply andb_prop in H; destruct H as [Hc Hs].
  - rewrite Hc. now apply IH.
  - now apply IH.
  - now apply IH.
Qed.

Lemma kept_digits_all (value : string) :
  str_all is_digit (kept_digits value) = true.
Proof. apply substring_all, remove_non_digits_all. Qed.

Lemma kept_digits_length (value : string) :
  (String.length (kept_digits value) <= 11)%nat.
Proof. unfold kept_digits, slice. apply substring_length_le. Qed.

Lemma telefone_input_digits (value : string) :
  remove_non_digits (telefone_input value) = kept_digits value.
Proof.
  unfold telefone_input. fold (kept_digits value).
  pose proof (kept_digits_all value) as Hall.
  set (v := kept_digits value) in *.
  assert (Hs : forall a b, remove_non_digits (slice a b v) = slice a b v)
    by (intros; apply remove_non_digits_id, substring_all, Hall).
  assert (Hf : forall a, remove_non_digits (slice_from a v) = slice_from a v)
    by (intros; apply remove_non_digits_id, substring_all, Hall).
  destruct (Boolean v) eqn:Eb; cbn [negb].
  - destruct (String.length v <=? 10)%nat;
      rewrite !remove_non_digits_app, !Hs, !Hf;
      cbn [remove_non_digits is_digit append];
      [apply slices_cover | apply slices_cover4]; lia.
  - apply Boolean_false_iff in Eb. now rewrite Eb.
Qed.

(** X13. Taking the digits out of the masked phone value gives back the
    digits that were typed, cut after the eleventh: the mask only adds
    punctuation. *)
Theorem mask_keeps_typed_digits (value : string) :
  remove_non_digits (telefone_input value)
  = slice 0 11 (remove_non_digits value).
Proof. apply telefone_input_digits. Qed.

Lemma telefone_input_same (x y : string) :
  kept_digits x = kept_digits y -> telefone_input x = telefone_input y.
Proof.
  unfold telefone_input. fold (kept_digits x). fold (kept_digits y).
  intros ->. reflexivity.
Qed.

Lemma kept_digits_masked (value : string) :
  kept_digits (telefone_input value) = kept_digits value.
Proof.
  unfold kept_digits at 1. rewrite telefone_input_digits.
  unfold slice. apply substring_all_short. cbn [Nat.sub].
  apply kept_digits_length.
Qed.

(** X14. Masking a masked value changes nothing. *)
Theorem mask_idempotent (value : string) :
  telefone_input (telefone_input value) = telefone_input value.
Proof. apply telefone_input_same, kept_digits_masked. Qed.

Lemma has_digit_removed (s : string) :
  has_digit s = Boolean (remove_non_digits s).
Proof.
  induction s as [|c s IH]; simpl; [reflexivity|].
  destruct (is_digit c); simpl; [reflexivity|exact IH].
Qed.

Lemma has_digit_kept (value : string) :
  has_digit value = Boolean (kept_digits value).
Proof.
  rewrite has_digit_removed. unfold kept_digits, slice.
  destruct (remove_non_digits value); reflexivity.
Qed.

Lemma telefone_input_empty_iff (value : string) :
  telefone_input value = "" <-> has_digit value = false.
Proof.
  rewrite has_digit_kept. unfold telefone_input. fold (kept_digits value).
  destruct (Boolean (kept_digits value)); cbn [negb].
  - split; [|discriminate].
    destruct (String.length (kept_digits value) <=? 10)%nat; discriminate.
  - split; reflexivity.
Qed.

Lemma telefone_input_length (value : string) :
  (String.length (telefone_input value) <= 16)%nat.
Proof.
  unfold telefone_input. fold (kept_digits value).
  pose proof (kept_digits_length value) as Hl.
  set (v := kept_digits value) in *.
  destruct (Boolean v); cbn [negb]; [|simpl; lia].
  destruct (String.length v <=? 10)%nat eqn:E.
  - apply Nat.leb_le in E.
    pose proof (f_equal String.length (slices_cover 2 6 v ltac:(lia))) as Hc.
    rewrite !length_append in *. cbn [String.length] in *. lia.
  - pose proof (f_equal String.length
                  (slices_cover4 2 3 7 v ltac:(lia) ltac:(lia))) as Hc.
    rewrite !length_append in *. cbn [String.length] in *. lia.
Qed.

(** X15. The masked phone value never has more than 16 characters, and it
    is empty exactly when no digit was typed. *)
Theorem mask_bounded_and_empty_without_digits (value : string) :
  (String.length (telefone_input value) <= 16)%nat
  /\ (telefone_input value = "" <-> has_digit value = false).
Proof.
  split; [apply telefone_input_length | apply telefone_input_empty_iff].
Qed.

Lemma trim_nonblank_head (c : ascii) (r : string) :
  is_blank c = false -> Boolean (trim (String c r)) = true.
Proof.
  intro H. unfold trim. cbn [trim_start]. rewrite H. cbn [trim_end].
  destruct (trim_end r); [rewrite H|]; reflexivity.
Qed.

Lemma trim_masked (value : string) :
  Boolean (trim (telefone_input value)) = has_digit value.
Proof.
  destruct (has_digit value) eqn:E.
  - rewrite has_digit_kept in E.
    unfold telefone_input. fold (kept_digits value). rewrite E. cbn [negb].
    destruct (String.length (kept_digits value) <=? 10)%nat;
      cbn [append]; apply trim_nonblank_head; reflexivity.
  - apply telefone_input_empty_iff in E. rewrite E. reflexivity.
Qed.

(** X16. With a service selected and the phone field holding what the mask
    wrote, the submission goes ahead exactly when a digit was typed. *)
Theorem submit_needs_a_typed_digit (typed srv : string) (w : Wizard) :
  telefone w = Some (telefone_input typed) ->
  servicoSel w = Some srv -> srv <> "" ->
  (form_posted (submitBtn_click w) = true <-> has_digit typed = true).
Proof.
  intros Ht Hs Hne. unfold form_posted, submitBtn_click.
  rewrite Ht, Hs, trim_masked.
  assert (Hb : Boolean srv = true).
  { destruct (Boolean srv) eqn:E; auto.
    apply Boolean_false_iff in E. contradiction. }
  rewrite Hb. destruct (has_digit typed); cbn; split; congruence.
Qed.

Lemma submit_needs_a_typed_digit_witness :
  form_posted
    (submitBtn_click
       {| visibleStep := 4; progressWidth := "100%";
          telefone := Some (telefone_input "11 98888-7777");
          servicoSel := Some "3"; submitFlag := ""; alerts := [] |}) = true
  /\ telefone_input "11 98888-7777" = "(11) 9 8888-7777".
Proof.
  split; [|reflexivity].
  apply (submit_needs_a_typed_digit "11 98888-7777" "3"
           {| visibleStep := 4; progressWidth := "100%";
              telefone := Some (telefone_input "11 98888-7777");
              servicoSel := Some "3"; submitFlag := ""; alerts := [] |}
           eq_refl eq_refl).
  - discriminate.
  - reflexivity.
Defined.

(** ** Calendar and month precheck *)

Lemma disable_unless_day allowed b : day (disable_unless allowed b) = day b.
Proof. unfold disable_unless. destruct (allowed_has allowed (day b)); reflexivity. Qed.

Lemma disable_unless_disabled allowed b :
  day_disabled (disable_unless allowed b)
  = day_disabled b || negb (allowed_has allowed (day b)).
Proof.
  unfold disable_unless.
  destruct (allowed_has allowed (day b)); cbn;
    [now rewrite orb_false_r | now rewrite orb_true_r].
Qed.

Lemma Forall2_map_r {A} (R : A -> A -> Prop) (f : A -> A) (l : list A) :
  (forall x, R x (f x)) -> Forall2 R l (map f l).
Proof. intro H. induction l; simpl; constructor; auto. Qed.

Lemma Forall2_same {A} (R : A -> A -> Prop) (l : list A) :
  (forall x, R x x) -> Forall2 R l l.
Proof. intro H. induction l; constructor; auto. Qed.

(** X17. Whatever the month request gives, the precheck keeps the buttons
    and their days and never enables one: a button that was disabled
    (a past day) stays disabled. *)
Theorem precheck_only_disables (servico : string)
    (res : FetchResult DaysField) (calendarGrid : list DayBtn)
    (log : list LogEntry) :
  Forall2 (fun b b' => day b' = day b
                       /\ (day_disabled b = true -> day_disabled b' = true))
          calendarGrid
          (fst (precheckMonthAvailability servico res calendarGrid log)).
Proof.
  assert (Hsame : Forall2 (fun b b' => day b' = day b
                             /\ (day_disabled b = true -> day_disabled b' = true))
                    calendarGrid calendarGrid)
    by (apply Forall2_same; auto).
  assert (Hmap : forall ds,
             Forall2 (fun b b' => day b' = day b
                        /\ (day_disabled b = true -> day_disabled b' = true))
               calendarGrid (map (disable_unless ds) calendarGrid)).
  { intro ds. apply Forall2_map_r. intro b. split.
    - apply disable_unless_day.
    - rewrite disable_unless_disabled. intros ->. reflexivity. }
  unfold precheckMonthAvailability.
  destruct (Boolean servico); cbn [negb fst]; [|exact Hsame].
  destruct res as [e|resp]; [exact Hsame|].
  destruct (json resp) as [e|[|e|ds]]; cbn [fst]; auto.
Qed.

(** X18. The precheck does not look at the status of the answer: when the
    body parses and holds no [days] (as the body of an error answer may),
    every day of the grid is disabled and nothing is logged. *)
Theorem precheck_without_days_disables_all (servico : string)
    (resp : Response DaysField) (calendarGrid : list DayBtn)
    (log : list LogEntry) :
  Boolean servico = true -> json resp = JsonData DaysMissing ->
  precheckMonthAvailability servico (FetchOk resp) calendarGrid log
  = (map (fun b => {| day := day b; day_disabled := true |}) calendarGrid,
     log).
Proof.
  intros Hs Hj. unfold precheckMonthAvailability.
  rewrite Hs, Hj. cbn [negb]. reflexivity.
Qed.

Lemma precheck_without_days_disables_all_witness :
  precheckMonthAvailability "3"
    (FetchOk {| ok := false; status := 500; text := TextOk "";
                json := JsonData DaysMissing |})
    march_grid []
  = ([ {| day := 1; day_disabled := true |};
       {| day := 2; day_disabled := true |};
       {| day := 3; day_disabled := true |} ], []).
Proof.
  apply (precheck_without_days_disables_all "3"
           {| ok := false; status := 500; text := TextOk "";
              json := JsonData DaysMissing |} march_grid []);
    reflexivity.
Defined.

(** X19. A month drawn by [renderCalendar] and then prechecked with a list
    of days has one button per day of the month, in order, and the button
    of a day is disabled exactly when the day is past or not listed. *)
Theorem calendar_after_precheck (servico : string) (days : nat)
    (past : Z -> bool) (old : list DayBtn) (resp : Response DaysField)
    (ds : list number) (log : list LogEntry) :
  Boolean servico = true -> json resp = JsonData (DaysArray ds) ->
  precheckMonthAvailability servico (FetchOk resp)
    (renderCalendar servico days past old) log
  = (map (fun d => {| day := Z.of_nat d;
                      day_disabled := past (Z.of_nat d)
                                      || negb (allowed_has ds (Z.of_nat d)) |})
         (seq 1 days),
     log).
Proof.
  intros Hs Hj. unfold precheckMonthAvailability, renderCalendar.
  rewrite Hs, Hj. cbn [negb]. f_equal.
  rewrite map_map. apply map_ext. intro d.
  unfold disable_unless. cbn [day day_disabled].
  destruct (allowed_has ds (Z.of_nat d)); cbn [negb];
    [now rewrite orb_false_r | now rewrite orb_true_r].
Qed.

Lemma calendar_after_precheck_witness :
  precheckMonthAvailability "3"
    (FetchOk {| ok := true; status := 200; text := TextOk "";
                json := JsonData (DaysArray [Num 2; Num 3]) |})
    (renderCalendar "3" 3 (fun d => d <? 3) []) []
  = ([ {| day := 1; day_disabled := true |};
       {| day := 2; day_disabled := true |};
       {| day := 3; day_disabled := false |} ], []).
Proof.
  apply (calendar_after_precheck "3" 3 (fun d => d <? 3) []
           {| ok := true; status := 200; text := TextOk "";
              json := JsonData (DaysArray [Num 2; Num 3]) |}
           [Num 2; Num 3] []); reflexivity.
Defined.

Lemma pad_ok_upto_99 :
  forallb pad_ok (map Z.of_nat (seq 0 100)) = true.
Proof. vm_compute. reflexivity. Qed.

Lemma year_four_digits :
  forallb (fun y => digits4 (String_of y)) (map Z.of_nat (seq 1000 (9 * 1000))) = true.
Proof. vm_compute. reflexivity. Qed.

Lemma in_range_list (lo len : nat) (z : Z) :
  Z.of_nat lo <= z < Z.of_nat (lo + len) ->
  In z (map Z.of_nat (seq lo len)).
Proof.
  intro H. apply in_map_iff. exists (Z.to_nat z). split; [lia|].
  apply in_seq. lia.
Qed.

Lemma pad_two_digits (n : Z) :
  0 <= n <= 99 -> digits2 (pad n) = true /\ Number (pad n) = Num n.
Proof.
  intro H. pose proof pad_ok_upto_99 as Hall.
  rewrite forallb_forall in Hall.
  specialize (Hall n (in_range_list 0 100 n ltac:(simpl; lia))).
  unfold pad_ok in Hall. apply andb_prop in Hall. destruct Hall as [H2 Hn].
  split; [exact H2|].
  destruct (Number (pad n)) as [|z]; [discriminate|].
  apply Z.eqb_eq in Hn. now subst.
Qed.

Lemma is_date_parts (y mm dd : string) :
  digits4 y = true -> digits2 mm = true -> digits2 dd = true ->
  is_date (y ^^ "-" ^^ mm ^^ "-" ^^ dd) = true.
Proof.
  destruct y as [|a [|b [|c [|d [|? ?]]]]]; try discriminate.
  destruct mm as [|e [|f [|? ?]]]; try discriminate.
  destruct dd as [|g [|h [|? ?]]]; try discriminate.
  cbn [digits4 digits2]. intros Hy Hm Hd.
  do 3 (apply andb_prop in Hy; destruct Hy as [Hy ?]).
  apply andb_prop in Hm. destruct Hm as [Hm ?].
  apply andb_prop in Hd. destruct Hd as [Hd ?].
  unfold is_date. cbn [append list_ascii_of_string].
  repeat match goal with E : is_digit _ = true |- _ => rewrite E; clear E end.
  reflexivity.
Qed.

(** X20. For a year of four digits, the day buttons of a month carry a
    date string of the fixed shape YYYY-MM-DD: month and day are padded to
    two digits and read back as the month (from 1) and the day. *)
Theorem dateStr_shape (y m d : Z) :
  1000 <= y <= 9999 -> 0 <= m <= 11 -> 1 <= d <= 31 ->
  is_date (dateStr_of y m d) = true
  /\ Number (pad (m + 1)) = Num (m + 1)
  /\ Number (pad d) = Num d.
Proof.
  intros Hy Hm Hd.
  destruct (pad_two_digits (m + 1) ltac:(lia)) as [Hm2 Hmn].
  destruct (pad_two_digits d ltac:(lia)) as [Hd2 Hdn].
  pose proof year_four_digits as Hall. rewrite forallb_forall in Hall.
  specialize (Hall y (in_range_list 1000 (9 * 1000) y ltac:(simpl; lia))).
  repeat split; auto.
  unfold dateStr_of. now apply is_date_parts.
Qed.

Lemma dateStr_shape_witness :
  is_date (dateStr_of 2025 2 9) = true /\ dateStr_of 2025 2 9 = "2025-03-09".
Proof.
  split; [|reflexivity].
  apply (dateStr_shape 2025 2 9); lia.
Defined.

(** ** Staff actions, path by path *)

(** The four handlers follow one pattern. *)
Lemma click_trace (a : Action) (env : Env) (b : Button) :
  trace (click a env b)
  = dialog_of a
    ++ (if goes_on a env then
          if Boolean (or_empty (obj_get (dataset b) (url_key a))) then
            Posted (or_empty (obj_get (dataset b) (url_key a)))
                   (form_of a env b)
            :: after_post a (post_result env)
          else [Alerted (alert_prefix a ^^ "URL ausente")]
        else []).
Proof.
  unfold after_post, dialog_of, goes_on, form_of, url_key.
  destruct a; run_click;
    try destruct (confirm_answer env);
    try split_url b; cbn; try reflexivity;
    split_answer env; cbn; reflexivity.
Qed.



(** X22. When the button carries no URL for its action (or an empty one),
    nothing is sent: after the dialog, if any, the operator is alerted of
    the missing URL and the button is reset. *)
Theorem click_without_url (a : Action) (env : Env) (b : Button) :
  or_empty (obj_get (dataset b) (url_key a)) = "" ->
  goes_on a env = true ->
  trace (click a env b)
  = dialog_of a ++ [Alerted (alert_prefix a ^^ "URL ausente")]
  /\ posts (click a env b) = []
  /\ disabled (btn (click a env b)) = false
  /\ textContent (btn (click a env b)) = idle_label a.
Proof.
  intros Hu Hg. destruct (click_button a env b) as (Hd & Ht & _).
  unfold posts. rewrite click_trace, Hu, Hg. cbn [Boolean String.eqb negb].
  repeat split; auto.
  rewrite filter_app. destruct a; reflexivity.
Qed.

Lemma click_without_url_witness :
  trace (click Confirm env_dismissed_ok
           {| dataset := []; disabled := false; textContent := "✅ Confirmar" |})
  = [Alerted "Erro ao confirmar: URL ausente"].
Proof.
  destruct (click_without_url Confirm env_dismissed_ok
              {| dataset := []; disabled := false;
                 textContent := "✅ Confirmar" |} eq_refl eq_refl)
    as (H & _).
  exact H.
Defined.

(** X23. The page is asked to reload only after a request that was
    answered with a status in 200-299, and then nothing is alerted. *)
Theorem reload_only_after_success (a : Action) (env : Env) (b : Button) :
  In Reloaded (trace (click a env b)) ->
  (exists resp, post_result env = FetchOk resp /\ ok resp = true)
  /\ posts (click a env b) <> []
  /\ forall m, ~ In (Alerted m) (trace (click a env b)).
Proof.
  unfold posts. rewrite click_trace. intro H.
  apply in_app_or in H. destruct H as [H|H];
    [destruct a; simpl in H; intuition discriminate|].
  destruct (goes_on a env); [|destruct H].
  destruct (Boolean (or_empty (obj_get (dataset b) (url_key a))));
    [|simpl in H; intuition discriminate].
  destruct H as [H|H]; [discriminate|].
  unfold after_post in *.
  destruct (post_result env) as [e|resp];
    [simpl in H; intuition discriminate|].
  destruct (ok resp) eqn:Hok.
  - split; [eauto|]. split.
    + rewrite filter_app. cbn [filter is_post].
      intro E. apply app_eq_nil in E. destruct E as [_ E]. discriminate.
    + intros m Hm. apply in_app_or in Hm. destruct Hm as [Hm|Hm].
      * destruct a; simpl in Hm; intuition discriminate.
      * simpl in Hm. intuition discriminate.
  - destruct (text resp); simpl in H; intuition discriminate.
Qed.

Lemma reload_only_after_success_witness :
  posts (click Confirm env_dismissed_ok confirm_button) <> [].
Proof.
  destruct (reload_only_after_success Confirm env_dismissed_ok confirm_button)
    as (_ & H & _).
  - right. left. reflexivity.
  - exact H.
Defined.

(** X24. A request goes to the URL the button carries for its action, which
    is not empty.  Confirm posts the service and the quoted price, each
    empty when the button lacks it, and the start time only when the
    button has a non-empty one; deny posts the reason typed, empty when
    the prompt was dismissed; finalize and no-show post an empty form. *)
Theorem posted_url_and_form (a : Action) (env : Env) (b : Button)
    (url : string) (form : list (string * string)) :
  In (Posted url form) (trace (click a env b)) ->
  obj_get (dataset b) (url_key a) = Some url /\ url <> ""
  /\ match a with
     | Confirm =>
         obj_get form "servico_id"
         = Some (or_empty (obj_get (dataset b) "servicoId"))
         /\ obj_get form "preco_cotado"
            = Some (or_empty (obj_get (dataset b) "preco"))
         /\ obj_get form "inicio"
            = match obj_get (dataset b) "inicio" with
              | Some v => if Boolean v then Some v else None
              | None => None
              end
     | Deny => form = [("motivo", or_empty (prompt_answer env))]
     | Finalize | NoShow => form = []
     end.
Proof.
  rewrite click_trace. intro H.
  apply in_app_or in H. destruct H as [H|H];
    [destruct a; simpl in H; intuition discriminate|].
  destruct (goes_on a env); [|destruct H].
  destruct (Boolean (or_empty (obj_get (dataset b) (url_key a)))) eqn:Eb;
    [|simpl in H; intuition discriminate].
  destruct H as [H|H].
  - injection H as <- <-.
    destruct (obj_get (dataset b) (url_key a)) as [u|] eqn:Eu;
      [|discriminate Eb].
    cbn [or_empty] in *. split; [reflexivity|]. split.
    + intros ->. discriminate Eb.
    + destruct a; cbn [form_of]; try reflexivity.
      destruct (obj_get (dataset b) "inicio") as [v|]; cbn [or_empty];
        [destruct (Boolean v)|]; repeat split; reflexivity.
  - exfalso. unfold after_post in H.
    destruct (post_result env) as [e|resp];
      [simpl in H; intuition discriminate|].
    destruct (ok resp); [simpl in H; intuition discriminate|].
    destruct (text resp); simpl in H; intuition discriminate.
Qed.

Lemma posted_url_and_form_witness :
  obj_get (dataset deny_button) (url_key Deny) = Some "/solicitacoes/7/negar/".
Proof.
  destruct (posted_url_and_form Deny env_dismissed_ok deny_button
              "/solicitacoes/7/negar/" [("motivo", "")])
    as (H & _).
  - right. left. reflexivity.
  - exact H.
Defined.

(** X25. On every path, also after a successful request and after a
    dismissed confirmation, the click leaves the button enabled, labelled
    with the fixed label of its action, and its data untouched. *)
Theorem click_always_resets_button (a : Action) (env : Env) (b : Button) :
  disabled (btn (click a env b)) = false
  /\ textContent (btn (click a env b)) = idle_label a
  /\ dataset (btn (click a env b)) = dataset b.
Proof. apply click_button. Qed.
